(** * Inventix AI backend: evidence-grounded trust calibration pipeline

    A shallow embedding of the calibration, feedback, audit, compliance and
    novelty-risk code of [backend/], and the properties of its specification
    checked against it.

    Conventions of the embedding.
    - A database session is a record of tables; a table is the list of its
      rows in insertion order.  [db.query(T).filter(p).all()] is [filter],
      [.first()] is [head], [.count()] is [length].  [db.add] followed by
      [db.commit] appends a row whose primary key is the next free one.  The
      database is SQLite, the default of [database_url]: [.limit(n)] with a
      negative [n] returns every row.
    - [log_action] reports a failed write in its result, so the outcome of
      its [db.commit()] is an explicit argument [commit_ok].
    - [datetime.utcnow()] is an explicit argument [now] of every function
      that reads the clock.
    - A Python exception is the [Raise] branch of [Result].
    - A Python float is the rational it denotes.  The quotient of two row
      counts is the exact rational; comparing it with the literals 0.1, 0.2
      and 0.30 gives the same answer as the binary comparison as long as a
      project has fewer than 10^15 feedback rows.  Every other float
      operation of the code (subtraction, decimal rounding, scaling,
      formatting) is a method of the class [Runtime], so nothing proved
      below depends on how it rounds. *)

From Stdlib Require Import QArith Qabs Qround.
From stdpp Require Import base option list strings gmap pretty sorting.

Close Scope Q_scope.
Open Scope Z_scope.

(** ** Python results *)

Inductive Result (E A : Type) : Type :=
| Ok (a : A)
| Raise (e : E).
Arguments Ok {E A} a.
Arguments Raise {E A} e.

(** [fastapi.HTTPException(status_code, detail)]. *)
Record HTTPException : Type := mkHTTPException {
  status_code : Z;
  detail : string
}.

(** The exceptions that leave the embedded functions. *)
Inductive Exception : Type :=
| HTTPError (e : HTTPException)
| ValueError (msg : string)
| AttributeError (msg : string).

Definition HTTP_400_BAD_REQUEST : Z := 400.
Definition HTTP_403_FORBIDDEN : Z := 403.
Definition HTTP_404_NOT_FOUND : Z := 404.

(** ** Python values *)

(** The values of a metadata dictionary: the JSON-serialisable ones, and
    [PyObject] for any object that [json.dumps] rejects. *)
#[warnings="-register-all"]
Inductive PyValue : Type :=
| PyNone
| PyBool (b : bool)
| PyInt (n : Z)
| PyFloat (x : Q)
| PyStr (s : string)
| PyList (l : list PyValue)
| PyDict (d : list (string * PyValue))
| PyObject (repr : string).

(** A dictionary with string keys, as the list of its items. *)
Definition PyDictItems : Type := list (string * PyValue).

Fixpoint serialisable (v : PyValue) : bool :=
  match v with
  | PyObject _ => false
  | PyList l => forallb serialisable l
  | PyDict d => forallb (fun kv => serialisable (snd kv)) d
  | _ => true
  end.

(** ** Operations the code takes from the Python runtime *)

Class Runtime : Type := {
  (** [json.dumps(d)] for a dictionary [d]; [None] where it raises *)
  json_dumps : PyDictItems -> option string;
  (** [round(x, 3)] *)
  round3 : Q -> Q;
  (** float subtraction [a - b] *)
  float_sub : Q -> Q -> Q;
  (** [int(x * y)] *)
  int_of_product : Q -> Q -> Z;
  (** [f"{x:.2f}"] and [f"{x:.4f}"] *)
  format_2f : Q -> string;
  format_4f : Q -> string;
  (** [hashlib.sha256(s.encode()).hexdigest()[:32]] *)
  sha256_hex32 : string -> string
}.

(** An instance that computes in exact arithmetic, for evaluating the model
    on concrete inputs.  Decimal rounding is to the nearest multiple of
    1/1000 with halves rounded to even; formatting, hashing and the text
    of a serialised dictionary are left symbolic. *)
Definition round_half_even (x : Q) : Z :=
  let f := Qfloor x in
  let r := (x - inject_Z f)%Q in
  match (r ?= 1 # 2)%Q with
  | Lt => f
  | Gt => f + 1
  | Eq => if Z.even f then f else f + 1
  end.

#[export] Instance exact_runtime : Runtime := {|
  json_dumps := fun d =>
    if forallb (fun kv => serialisable (snd kv)) d then Some "<json>" else None;
  round3 := fun x => (inject_Z (round_half_even (x * 1000)) / 1000)%Q;
  float_sub := fun a b => (a - b)%Q;
  int_of_product := fun x y => Z.quot (Qnum (x * y)%Q) (Z.pos (Qden (x * y)%Q));
  format_2f := fun _ => "<.2f>";
  format_4f := fun _ => "<.4f>";
  sha256_hex32 := fun s => s
|}.

(** ** models.py *)

Module Models.

Inductive ProjectType : Type := RESEARCH | PATENT | MIXED.

Inductive NoveltyRiskLevel : Type := GREEN | YELLOW | RED | UNKNOWN.

Inductive FeedbackType : Type :=
| HELPFUL | NOT_HELPFUL | AGREE | DISAGREE | NEEDS_REVISION | NEEDS_EXPERT.

Inductive OutputType : Type :=
| SIMILARITY | SUMMARY | DRAFT | CLAIM | RECOMMENDATION | COMPARATIVE.

Inductive ConfidenceLevel : Type := LOW | MEDIUM | HIGH.

Inductive ActionType : Type :=
| PROJECT_CREATED | FILE_UPLOADED | TEXT_EXTRACTED | EVIDENCE_RETRIEVED
| SIMILARITY_COMPUTED | NOVELTY_CLASSIFIED | DRAFT_OPTIMIZED | CLAIMS_GENERATED
| FEEDBACK_SUBMITTED | CALIBRATION_UPDATED | COMPLIANCE_CHECK | SYSTEM_STARTUP.

#[export] Instance ProjectType_eq_dec : EqDecision ProjectType.
Proof. solve_decision. Defined.
#[export] Instance NoveltyRiskLevel_eq_dec : EqDecision NoveltyRiskLevel.
Proof. solve_decision. Defined.
#[export] Instance FeedbackType_eq_dec : EqDecision FeedbackType.
Proof. solve_decision. Defined.
#[export] Instance OutputType_eq_dec : EqDecision OutputType.
Proof. solve_decision. Defined.
#[export] Instance ConfidenceLevel_eq_dec : EqDecision ConfidenceLevel.
Proof. solve_decision. Defined.
#[export] Instance ActionType_eq_dec : EqDecision ActionType.
Proof. solve_decision. Defined.

(** The [.value] of a member of a [str] enumeration. *)
Definition NoveltyRiskLevel_value (r : NoveltyRiskLevel) : string :=
  match r with
  | GREEN => "GREEN" | YELLOW => "YELLOW" | RED => "RED" | UNKNOWN => "UNKNOWN"
  end.

Definition FeedbackType_value (t : FeedbackType) : string :=
  match t with
  | HELPFUL => "HELPFUL" | NOT_HELPFUL => "NOT_HELPFUL" | AGREE => "AGREE"
  | DISAGREE => "DISAGREE" | NEEDS_REVISION => "NEEDS_REVISION"
  | NEEDS_EXPERT => "NEEDS_EXPERT"
  end.

Definition OutputType_value (t : OutputType) : string :=
  match t with
  | SIMILARITY => "SIMILARITY" | SUMMARY => "SUMMARY" | DRAFT => "DRAFT"
  | CLAIM => "CLAIM" | RECOMMENDATION => "RECOMMENDATION"
  | COMPARATIVE => "COMPARATIVE"
  end.

Definition ConfidenceLevel_value (c : ConfidenceLevel) : string :=
  match c with LOW => "LOW" | MEDIUM => "MEDIUM" | HIGH => "HIGH" end.

Definition ActionType_value (a : ActionType) : string :=
  match a with
  | PROJECT_CREATED => "PROJECT_CREATED" | FILE_UPLOADED => "FILE_UPLOADED"
  | TEXT_EXTRACTED => "TEXT_EXTRACTED" | EVIDENCE_RETRIEVED => "EVIDENCE_RETRIEVED"
  | SIMILARITY_COMPUTED => "SIMILARITY_COMPUTED"
  | NOVELTY_CLASSIFIED => "NOVELTY_CLASSIFIED" | DRAFT_OPTIMIZED => "DRAFT_OPTIMIZED"
  | CLAIMS_GENERATED => "CLAIMS_GENERATED" | FEEDBACK_SUBMITTED => "FEEDBACK_SUBMITTED"
  | CALIBRATION_UPDATED => "CALIBRATION_UPDATED" | COMPLIANCE_CHECK => "COMPLIANCE_CHECK"
  | SYSTEM_STARTUP => "SYSTEM_STARTUP"
  end.

(** [Enum(value)]: the member with that value, [None] where Python raises
    [ValueError]. *)
Definition enum_of_value {A : Type} (value : A -> string) (members : list A)
    (s : string) : option A :=
  head (filter (fun m => value m = s) members).

Definition FeedbackType_members : list FeedbackType :=
  [HELPFUL; NOT_HELPFUL; AGREE; DISAGREE; NEEDS_REVISION; NEEDS_EXPERT].
Definition OutputType_members : list OutputType :=
  [SIMILARITY; SUMMARY; DRAFT; CLAIM; RECOMMENDATION; COMPARATIVE].
Definition ConfidenceLevel_members : list ConfidenceLevel := [LOW; MEDIUM; HIGH].
Definition ActionType_members : list ActionType :=
  [PROJECT_CREATED; FILE_UPLOADED; TEXT_EXTRACTED; EVIDENCE_RETRIEVED;
   SIMILARITY_COMPUTED; NOVELTY_CLASSIFIED; DRAFT_OPTIMIZED; CLAIMS_GENERATED;
   FEEDBACK_SUBMITTED; CALIBRATION_UPDATED; COMPLIANCE_CHECK; SYSTEM_STARTUP].

Definition FeedbackType_of (s : string) : option FeedbackType :=
  enum_of_value FeedbackType_value FeedbackType_members s.
Definition OutputType_of (s : string) : option OutputType :=
  enum_of_value OutputType_value OutputType_members s.
Definition ConfidenceLevel_of (s : string) : option ConfidenceLevel :=
  enum_of_value ConfidenceLevel_value ConfidenceLevel_members s.
Definition ActionType_of (s : string) : option ActionType :=
  enum_of_value ActionType_value ActionType_members s.

(** Rows.  Columns that none of the embedded functions reads or writes are
    left out, and so are the timestamps that only a column default fills and
    no query orders by.  [calibration_notes] holds the list whose JSON text
    the column stores. *)

Record Project : Type := mkProject {
  project_id_ : Z;
  project_name : string;
  project_type : ProjectType;
  project_domain : option string
}.

(** [source_type] and [evidence_type] are the strings ["paper"] or
    ["patent"]. *)
Record CandidateEvidence : Type := mkCandidateEvidence {
  ev_id : Z;
  ev_project_id : Z;
  ev_source_type : string;
  ev_title : string
}.

Record SimilarityScore : Type := mkSimilarityScore {
  ss_project_id : Z;
  ss_evidence_id : Z;
  ss_score : Z;
  ss_evidence_type : string;
  ss_computed_at : Z
}.

(** [score_float]: [self.score / 10000.0]. *)
Definition score_float (s : SimilarityScore) : Q := (inject_Z (ss_score s) / 10000)%Q.

Record AnalysisState : Type := mkAnalysisState {
  as_project_id : Z;
  as_similarity_computed : bool;
  as_novelty_risk : NoveltyRiskLevel;
  as_max_similarity_score : option Z;
  as_top_evidence_id : option Z;
  as_notes : string
}.

Record UserFeedback : Type := mkUserFeedback {
  fb_id : Z;
  fb_output_id : string;
  fb_output_type : OutputType;
  fb_project_id : Z;
  fb_user_id : option string;
  fb_user_role : option string;
  fb_feedback_type : FeedbackType;
  fb_comment : option string;
  fb_created_at : Z;
  fb_ip_hash : option string
}.

Record ConfidenceCalibration : Type := mkConfidenceCalibration {
  cc_project_id : Z;
  cc_confidence_level : ConfidenceLevel;
  cc_human_review_recommended : bool;
  cc_disagreement_flag : bool;
  cc_calibration_notes : list string;
  cc_total_feedback_count : Z;
  cc_disagreement_count : Z;
  cc_agreement_count : Z;
  cc_evidence_count : Z
}.

Record AuditLog : Type := mkAuditLog {
  al_id : Z;
  al_action_type : ActionType;
  al_entity_type : string;
  al_entity_id : option Z;
  al_user_id : option string;
  al_created_at : Z;
  al_metadata_json : option string;
  al_compliance_mode_active : bool
}.

#[export] Instance AuditLog_eq_dec : EqDecision AuditLog.
Proof. solve_decision. Defined.

(** The database session. *)
Record DB : Type := mkDB {
  projects : list Project;
  candidate_evidence : list CandidateEvidence;
  similarity_scores : list SimilarityScore;
  analysis_states : list AnalysisState;
  user_feedback : list UserFeedback;
  confidence_calibrations : list ConfidenceCalibration;
  audit_logs : list AuditLog
}.

Definition empty_db : DB := mkDB [] [] [] [] [] [] [].

(** The primary key of the next inserted row. *)
Definition next_id (ids : list Z) : Z := 1 + foldr Z.max 0 ids.

End Models.
Import Models.

(** ** config.py *)

Record Settings : Type := mkSettings {
  research_red_threshold : Q;
  research_yellow_threshold : Q;
  patent_red_threshold : Q;
  patent_yellow_threshold : Q;
  compliance_mode : bool;
  audit_logs_enabled : bool
}.

(** The defaults of the class [Settings]. *)
Definition default_settings : Settings := {|
  research_red_threshold := 80 # 100;
  research_yellow_threshold := 50 # 100;
  patent_red_threshold := 75 # 100;
  patent_yellow_threshold := 45 # 100;
  compliance_mode := false;
  audit_logs_enabled := true
|}.

(** ** compliance_service.py *)

Module Compliance.

Record Rule : Type := mkRule {
  allowed_in_compliance : bool;
  reason : string
}.

Definition RESTRICTED_FEATURES : gmap string Rule :=
  <["PATENT_CLAIM_GENERATION" := mkRule false
      "Patent claim generation is disabled in Compliance Mode to prevent unauthorized legal practice."]> (
  <["DRAFT_OPTIMIZATION_CREATIVE" := mkRule false
      "Creative rewriting is disabled. Only clarity/grammar fixes allowed."]> (
  <["HIGH_RISK_NOVELTY_CHECK" := mkRule true
      "Novelty checking is allowed but creates permanent audit records."]> ∅)).

Definition is_compliance_mode_active (settings : Settings) : bool :=
  compliance_mode settings.

Definition validate_feature_access (settings : Settings) (feature_name : string)
    : Result HTTPException unit :=
  if negb (is_compliance_mode_active settings) then Ok tt
  else
    match RESTRICTED_FEATURES !! feature_name with
    | Some rule =>
        if negb (allowed_in_compliance rule) then
          Raise (mkHTTPException HTTP_403_FORBIDDEN
                   ("Compliance Restriction: " +:+ reason rule))
        else Ok tt
    | None => Ok tt
    end.

Definition check_draft_optimization_params (settings : Settings)
    (instruction : string) : string :=
  if is_compliance_mode_active settings then
    "Improve clarity, grammar, and academic tone. Do not add new ideas or change the meaning."
  else instruction.

(** The items of the dictionary literal [RESTRICTED_FEATURES] in the order
    of the source, which is the order in which [.items()] yields them. *)
Definition RESTRICTED_FEATURES_items : list (string * Rule) :=
  [ ("PATENT_CLAIM_GENERATION", mkRule false
       "Patent claim generation is disabled in Compliance Mode to prevent unauthorized legal practice.");
    ("DRAFT_OPTIMIZATION_CREATIVE", mkRule false
       "Creative rewriting is disabled. Only clarity/grammar fixes allowed.");
    ("HIGH_RISK_NOVELTY_CHECK", mkRule true
       "Novelty checking is allowed but creates permanent audit records.") ].

Record ComplianceStatus : Type := mkComplianceStatus {
  compliance_mode_active : bool;
  restricted_features : list string;
  audit_logging_enabled : bool
}.

Definition get_system_compliance_status (settings : Settings) : ComplianceStatus := {|
  compliance_mode_active := is_compliance_mode_active settings;
  restricted_features :=
    fst <$> filter (fun kv => allowed_in_compliance kv.2 = false) RESTRICTED_FEATURES_items;
  audit_logging_enabled := audit_logs_enabled settings
|}.

End Compliance.

(** ** Queries *)

(** [order_by(key.desc())]: rows by decreasing key.  Rows with equal keys
    keep their insertion order. *)
Fixpoint insert_desc {A : Type} (key : A -> Z) (x : A) (l : list A) : list A :=
  match l with
  | [] => [x]
  | y :: l' => if key x <? key y then y :: insert_desc key x l' else x :: l
  end.

Definition order_by_desc {A : Type} (key : A -> Z) (l : list A) : list A :=
  foldr (insert_desc key) [] l.

(** [.limit(n)]: the first [n] rows, and every row for a negative [n]. *)
Definition sql_limit {A : Type} (limit : Z) (l : list A) : list A :=
  if limit <? 0 then l else take (Z.to_nat limit) l.

(** [sum(1 for x in l if p(x))]. *)
Definition count_where {A : Type} (P : A -> Prop) `{!forall x, Decision (P x)}
    (l : list A) : Z :=
  Z.of_nat (length (filter P l)).

(** Comparisons of floats. *)
Definition Qltb (x y : Q) : bool := (Qnum x * QDen y <? Qnum y * QDen x)%Z.
Definition Qleb (x y : Q) : bool := (Qnum x * QDen y <=? Qnum y * QDen x)%Z.

(** [x or d] and [if x] for an optional string: [None] and the empty string
    are both false. *)
Definition truthy (x : option string) : bool :=
  match x with
  | Some s => negb (String.eqb s EmptyString)
  | None => false
  end.

Definition set_audit_logs (db : DB) (l : list AuditLog) : DB :=
  mkDB (projects db) (candidate_evidence db) (similarity_scores db)
       (analysis_states db) (user_feedback db) (confidence_calibrations db) l.

Definition set_user_feedback (db : DB) (l : list UserFeedback) : DB :=
  mkDB (projects db) (candidate_evidence db) (similarity_scores db)
       (analysis_states db) l (confidence_calibrations db) (audit_logs db).

Definition set_confidence_calibrations (db : DB) (l : list ConfidenceCalibration) : DB :=
  mkDB (projects db) (candidate_evidence db) (similarity_scores db)
       (analysis_states db) (user_feedback db) l (audit_logs db).

Definition set_analysis_states (db : DB) (l : list AnalysisState) : DB :=
  mkDB (projects db) (candidate_evidence db) (similarity_scores db)
       l (user_feedback db) (confidence_calibrations db) (audit_logs db).

Definition set_candidate_evidence (db : DB) (l : list CandidateEvidence) : DB :=
  mkDB (projects db) l (similarity_scores db)
       (analysis_states db) (user_feedback db) (confidence_calibrations db)
       (audit_logs db).

Definition set_similarity_scores (db : DB) (l : list SimilarityScore) : DB :=
  mkDB (projects db) (candidate_evidence db) l
       (analysis_states db) (user_feedback db) (confidence_calibrations db)
       (audit_logs db).

(** ** audit_service.py *)

Module Audit.

Section WithRuntime.
Context `{Runtime}.

(** [json.dumps(metadata) if metadata else None]: [Some None] for [None] and
    for the empty dictionary, [Some (Some text)] for a dictionary that
    serialises to [text], and [None] where [json.dumps] raises. *)
Definition metadata_json_of (metadata : option PyDictItems) : option (option string) :=
  match metadata with
  | Some (item :: items) => Some <$> json_dumps (item :: items)
  | _ => Some None
  end.

(** [commit_ok] tells whether [db.commit()] succeeds.  A failure of
    [json.dumps] or of the commit reaches the [except] branch, which returns
    [False]; the row is then not written. *)
Definition log_action (settings : Settings) (now : Z) (commit_ok : bool) (db : DB)
    (action_type entity_type : string) (entity_id : option Z)
    (user_id : option string) (metadata : option PyDictItems) : DB * bool :=
  if negb (audit_logs_enabled settings) then (db, true)
  else
    match ActionType_of action_type with
    | None => (db, false)
    | Some a_type =>
        match metadata_json_of metadata with
        | None => (db, false)
        | Some metadata_json =>
            let log_entry := {|
              al_id := next_id (al_id <$> audit_logs db);
              al_action_type := a_type;
              al_entity_type := entity_type;
              al_entity_id := entity_id;
              al_user_id := if truthy user_id then user_id else Some "system";
              al_created_at := now;
              al_metadata_json := metadata_json;
              al_compliance_mode_active := compliance_mode settings
            |} in
            if commit_ok
            then (set_audit_logs db (audit_logs db ++ [log_entry]), true)
            else (db, false)
        end
    end.

End WithRuntime.

Definition get_project_audit_trail (db : DB) (project_id : Z) (limit : Z)
    : list AuditLog :=
  let query :=
    filter (fun a => al_entity_type a = "Project" /\ al_entity_id a = Some project_id)
           (audit_logs db) in
  sql_limit limit (order_by_desc al_created_at query).

Definition get_recent_system_logs (db : DB) (limit : Z) : list AuditLog :=
  sql_limit limit (order_by_desc al_created_at (audit_logs db)).

End Audit.

(** ** feedback_service.py *)

Module Feedback.

Record FeedbackSubmission : Type := mkFeedbackSubmission {
  success : bool;
  feedback_id : Z;
  fs_output_id : string;
  fs_feedback_type : string;
  message : string;
  timestamp : Z
}.

Record FeedbackSummary : Type := mkFeedbackSummary {
  output_id : string;
  total_count : Z;
  helpful_count : Z;
  not_helpful_count : Z;
  agree_count : Z;
  disagree_count : Z;
  needs_revision_count : Z;
  needs_expert_count : Z;
  disagreement_rate : Q;
  comments : list string
}.

Record FeedbackItem : Type := mkFeedbackItem {
  fi_id : Z;
  fi_output_id : string;
  fi_output_type : string;
  fi_feedback_type : string;
  fi_comment : option string;
  fi_timestamp : Z
}.

Record ProjectFeedbackStats : Type := mkProjectFeedbackStats {
  pfs_project_id : Z;
  total_feedback : Z;
  total_outputs_rated : Z;
  overall_disagreement_rate : Q;
  outputs_needing_review : Z;
  recent_feedback : list FeedbackItem
}.

(** The members of the set [disagree_types] of [get_project_feedback] (and
    of [calculate_confidence]). *)
Definition disagree_types : list FeedbackType := [DISAGREE; NOT_HELPFUL; NEEDS_REVISION].

Section WithRuntime.
Context `{Runtime}.

Definition hash_ip (ip_address : option string) : option string :=
  if negb (truthy ip_address) then None
  else sha256_hex32 <$> ip_address.

Definition calculate_disagreement_rate
    (disagree_count agree_count not_helpful_count helpful_count : Z) : Q :=
  let total_positive := agree_count + helpful_count in
  let total_negative := disagree_count + not_helpful_count in
  let total := total_positive + total_negative in
  if total =? 0 then 0%Q
  else round3 (inject_Z total_negative / inject_Z total)%Q.

(** The outer [except] branch (rollback on a failure of the storage layer)
    has no counterpart: [db.add] and [db.commit] cannot fail here. *)
Definition submit_feedback (now : Z) (db : DB)
    (output_id output_type : string) (project_id : Z) (feedback_type : string)
    (user_id user_role comment ip_address : option string)
    : DB * FeedbackSubmission :=
  match FeedbackType_of feedback_type with
  | None =>
      (db, mkFeedbackSubmission false 0 output_id feedback_type
             ("Invalid feedback type: " +:+ feedback_type) now)
  | Some fb_type =>
      match OutputType_of output_type with
      | None =>
          (db, mkFeedbackSubmission false 0 output_id feedback_type
                 ("Invalid output type: " +:+ output_type) now)
      | Some out_type =>
          let feedback := {|
            fb_id := next_id (fb_id <$> user_feedback db);
            fb_output_id := output_id;
            fb_output_type := out_type;
            fb_project_id := project_id;
            fb_user_id := user_id;
            fb_user_role := user_role;
            fb_feedback_type := fb_type;
            fb_comment := comment;
            fb_created_at := now;
            fb_ip_hash := hash_ip ip_address
          |} in
          (set_user_feedback db (user_feedback db ++ [feedback]),
           mkFeedbackSubmission true (fb_id feedback) output_id feedback_type
             "Feedback recorded successfully. Thank you for helping improve the system."
             (fb_created_at feedback))
      end
  end.

Definition get_feedback_for_output (db : DB) (output_id : string) : FeedbackSummary :=
  let feedback_list :=
    order_by_desc fb_created_at
      (filter (fun f => fb_output_id f = output_id) (user_feedback db)) in
  let helpful := count_where (fun f => fb_feedback_type f = HELPFUL) feedback_list in
  let not_helpful := count_where (fun f => fb_feedback_type f = NOT_HELPFUL) feedback_list in
  let agree := count_where (fun f => fb_feedback_type f = AGREE) feedback_list in
  let disagree := count_where (fun f => fb_feedback_type f = DISAGREE) feedback_list in
  let needs_revision :=
    count_where (fun f => fb_feedback_type f = NEEDS_REVISION) feedback_list in
  let needs_expert :=
    count_where (fun f => fb_feedback_type f = NEEDS_EXPERT) feedback_list in
  let comments :=
    omap (fun f => if truthy (fb_comment f) then fb_comment f else None) feedback_list in
  {| output_id := output_id;
     total_count := Z.of_nat (length feedback_list);
     helpful_count := helpful;
     not_helpful_count := not_helpful;
     agree_count := agree;
     disagree_count := disagree;
     needs_revision_count := needs_revision;
     needs_expert_count := needs_expert;
     disagreement_rate := calculate_disagreement_rate disagree agree not_helpful helpful;
     comments := take 10 comments |}.

Definition get_project_feedback (db : DB) (project_id : Z) : ProjectFeedbackStats :=
  let feedback_list :=
    order_by_desc fb_created_at
      (filter (fun f => fb_project_id f = project_id) (user_feedback db)) in
  let unique_outputs := remove_dups (fb_output_id <$> feedback_list) in
  let disagreements :=
    count_where (fun f => fb_feedback_type f ∈ disagree_types) feedback_list in
  let disagreement_rate :=
    match feedback_list with
    | [] => 0%Q
    | _ => (inject_Z disagreements / inject_Z (Z.of_nat (length feedback_list)))%Q
    end in
  let needs_review :=
    count_where (fun f => fb_feedback_type f = NEEDS_EXPERT) feedback_list in
  let recent :=
    (fun f => {| fi_id := fb_id f;
                 fi_output_id := fb_output_id f;
                 fi_output_type := OutputType_value (fb_output_type f);
                 fi_feedback_type := FeedbackType_value (fb_feedback_type f);
                 fi_comment := fb_comment f;
                 fi_timestamp := fb_created_at f |}) <$> take 10 feedback_list in
  {| pfs_project_id := project_id;
     total_feedback := Z.of_nat (length feedback_list);
     total_outputs_rated := Z.of_nat (length unique_outputs);
     overall_disagreement_rate := round3 disagreement_rate;
     outputs_needing_review := needs_review;
     recent_feedback := recent |}.

End WithRuntime.

End Feedback.

(** ** calibration_service.py *)

Module Calibration.

Definition EVIDENCE_COUNT_LOW_THRESHOLD : Z := 3.
Definition EVIDENCE_COUNT_MEDIUM_THRESHOLD : Z := 10.
Definition DISAGREEMENT_HIGH_THRESHOLD : Q := 30 # 100.
Definition SIMILARITY_CLARITY_THRESHOLD : Q := 20 # 100.

(** Declared by the module and read by none of its functions. *)
Definition RESTRICTED_CONTEXTS : list string := ["PATENT"; "LEGAL"; "MEDICAL"; "FINANCIAL"].

Inductive MetricValue : Type :=
| MInt (n : Z)
| MStr (s : string)
| MFloat (x : Q).

Record CalibrationResult : Type := mkCalibrationResult {
  confidence_level : string;
  human_review_recommended : bool;
  disagreement_flag : bool;
  calibration_notes : list string;
  metrics : gmap string MetricValue
}.

Definition NOTE_HIGH_DISAGREEMENT : string :=
  "High disagreement detected on this analysis — exercise caution".
Definition NOTE_LOW_EVIDENCE : string :=
  "Evidence coverage limited — conclusions may be weak".
Definition NOTE_HUMAN_REVIEW : string :=
  "Human review strongly recommended before acting".
Definition NOTE_PATENT_CONTEXT : string :=
  "Patent/legal context — professional review essential".
Definition NOTE_NOVELTY_RED : string :=
  "High overlap with prior art detected — claims at risk".
Definition NOTE_LOW_SIMILARITY_CLARITY : string :=
  "Similarity scores lack clear differentiation — interpretation uncertain".
Definition NOTE_NO_FEEDBACK : string :=
  "No human feedback yet — confidence based on system metrics only".
Definition NOTE_MIXED_SIGNALS : string :=
  "Mixed evidence signals — additional review advisable".

(** [notes.append(n)] under a condition. *)
Definition note_if (c : bool) (n : string) : list string := if c then [n] else [].

(** The blocks of [calculate_confidence] that read the database. *)

Definition get_project (db : DB) (project_id : Z) : option Project :=
  head (filter (fun p => project_id_ p = project_id) (projects db)).

Definition evidence_count_of (db : DB) (project_id : Z) : Z :=
  Z.of_nat (length (filter (fun e => ev_project_id e = project_id) (candidate_evidence db))).

Definition novelty_risk_of (db : DB) (project_id : Z) : NoveltyRiskLevel :=
  match head (filter (fun a => as_project_id a = project_id) (analysis_states db)) with
  | Some analysis_state => as_novelty_risk analysis_state
  | None => UNKNOWN
  end.

Definition feedback_list_of (db : DB) (project_id : Z) : list UserFeedback :=
  filter (fun f => fb_project_id f = project_id) (user_feedback db).

Definition disagreement_rate_of (feedback_list : list UserFeedback) : Q :=
  let total_feedback := Z.of_nat (length feedback_list) in
  if total_feedback =? 0 then 0%Q
  else
    let disagreements :=
      count_where (fun f => fb_feedback_type f ∈ Feedback.disagree_types) feedback_list in
    (inject_Z disagreements / inject_Z total_feedback)%Q.

(** The block under "Apply Rules": the level and the note it appends. *)
Definition apply_rules (novelty_risk : NoveltyRiskLevel) (evidence_count : Z)
    (disagreement_rate : Q) (high_disagreement is_restricted_context : bool)
    : ConfidenceLevel * list string :=
  if bool_decide (novelty_risk = RED) && (evidence_count <? EVIDENCE_COUNT_LOW_THRESHOLD)
  then (LOW, [NOTE_HUMAN_REVIEW])
  else if high_disagreement
  then (LOW, [NOTE_HUMAN_REVIEW])
  else if is_restricted_context
  then
    if (EVIDENCE_COUNT_MEDIUM_THRESHOLD <=? evidence_count) && Qltb disagreement_rate (1 # 10)
    then (MEDIUM, [])
    else (LOW, [NOTE_HUMAN_REVIEW])
  else if (EVIDENCE_COUNT_MEDIUM_THRESHOLD <=? evidence_count) && Qltb disagreement_rate (1 # 10)
  then (MEDIUM, [])
  else if EVIDENCE_COUNT_LOW_THRESHOLD <=? evidence_count
  then
    if Qltb disagreement_rate (2 # 10)
    then (MEDIUM, [])
    else (LOW, [NOTE_MIXED_SIGNALS])
  else (LOW, [NOTE_HUMAN_REVIEW]).

Section WithRuntime.
Context `{Runtime}.

Definition similarity_clarity_of (db : DB) (project_id : Z) : Q :=
  let scores :=
    take 5 (order_by_desc ss_score
              (filter (fun s => ss_project_id s = project_id) (similarity_scores db))) in
  match scores with
  | s0 :: s1 :: _ =>
      let top_score := score_float s0 in
      let second_score := score_float s1 in
      Qabs (float_sub top_score second_score)
  | _ => 0%Q
  end.

Definition calculate_confidence (db : DB) (project_id : Z) : CalibrationResult :=
  match get_project db project_id with
  | None =>
      {| confidence_level := ConfidenceLevel_value LOW;
         human_review_recommended := true;
         disagreement_flag := false;
         calibration_notes := ["Project not found"];
         metrics := ∅ |}
  | Some project =>
      let is_restricted_context := bool_decide (project_type project = PATENT) in
      let notes := note_if is_restricted_context NOTE_PATENT_CONTEXT in
      let evidence_count := evidence_count_of db project_id in
      let metrics := <["evidence_count" := MInt evidence_count]> (∅ : gmap string MetricValue) in
      let notes :=
        notes ++ note_if (evidence_count <? EVIDENCE_COUNT_LOW_THRESHOLD) NOTE_LOW_EVIDENCE in
      let novelty_risk := novelty_risk_of db project_id in
      let metrics := <["novelty_risk" := MStr (NoveltyRiskLevel_value novelty_risk)]> metrics in
      let notes := notes ++ note_if (bool_decide (novelty_risk = RED)) NOTE_NOVELTY_RED in
      let feedback_list := feedback_list_of db project_id in
      let total_feedback := Z.of_nat (length feedback_list) in
      let metrics := <["total_feedback" := MInt total_feedback]> metrics in
      let notes := notes ++ note_if (total_feedback =? 0) NOTE_NO_FEEDBACK in
      let disagreement_rate := disagreement_rate_of feedback_list in
      let metrics := <["disagreement_rate" := MFloat (round3 disagreement_rate)]> metrics in
      let high_disagreement := Qltb DISAGREEMENT_HIGH_THRESHOLD disagreement_rate in
      let notes := notes ++ note_if high_disagreement NOTE_HIGH_DISAGREEMENT in
      let similarity_clarity := similarity_clarity_of db project_id in
      let metrics := <["similarity_clarity" := MFloat (round3 similarity_clarity)]> metrics in
      let notes :=
        notes ++ note_if (Qltb 0 similarity_clarity
                          && Qltb similarity_clarity SIMILARITY_CLARITY_THRESHOLD)
                         NOTE_LOW_SIMILARITY_CLARITY in
      let '(confidence_level, rule_notes) :=
        apply_rules novelty_risk evidence_count disagreement_rate high_disagreement
                    is_restricted_context in
      let notes := notes ++ rule_notes in
      let human_review_recommended :=
        bool_decide (confidence_level = LOW) || is_restricted_context
        || high_disagreement || bool_decide (novelty_risk = RED) in
      {| confidence_level := ConfidenceLevel_value confidence_level;
         human_review_recommended := human_review_recommended;
         disagreement_flag := high_disagreement;
         calibration_notes := notes;
         metrics := metrics |}
  end.

(** [metrics.get(key, 0)] for the integer entries. *)
Definition metric_int (metrics : gmap string MetricValue) (key : string) : Z :=
  match metrics !! key with
  | Some (MInt n) => n
  | _ => 0
  end.

(** [int(metrics.get("disagreement_rate", 0) * metrics.get("total_feedback", 0))]:
    a float product when the rate is present, the integer [0 * n] when it is
    not. *)
Definition disagreement_count_of (metrics : gmap string MetricValue) : Z :=
  match metrics !! "disagreement_rate" with
  | Some (MFloat x) => int_of_product x (inject_Z (metric_int metrics "total_feedback"))
  | Some (MInt n) => n * metric_int metrics "total_feedback"
  | _ => 0
  end.

(** Assignment to the attributes of the first row that [p] selects. *)
Fixpoint update_first {A : Type} (p : A -> bool) (f : A -> A) (l : list A) : list A :=
  match l with
  | [] => []
  | x :: l' => if p x then f x :: l' else x :: update_first p f l'
  end.

(** [ConfidenceLevel(result.confidence_level)] raises [ValueError] on a
    string that is no member's value. *)
Definition get_or_create_calibration (db : DB) (project_id : Z)
    : Result Exception (DB * CalibrationResult) :=
  let result := calculate_confidence db project_id in
  let existing :=
    head (filter (fun c => cc_project_id c = project_id) (confidence_calibrations db)) in
  match ConfidenceLevel_of (confidence_level result) with
  | None => Raise (ValueError (confidence_level result))
  | Some level =>
      let rows :=
        match existing with
        | Some _ =>
            update_first (fun c => bool_decide (cc_project_id c = project_id))
              (fun c => {|
                 cc_project_id := cc_project_id c;
                 cc_confidence_level := level;
                 cc_human_review_recommended := human_review_recommended result;
                 cc_disagreement_flag := disagreement_flag result;
                 cc_calibration_notes := calibration_notes result;
                 cc_total_feedback_count := metric_int (metrics result) "total_feedback";
                 cc_disagreement_count := disagreement_count_of (metrics result);
                 cc_agreement_count := cc_agreement_count c;
                 cc_evidence_count := metric_int (metrics result) "evidence_count" |})
              (confidence_calibrations db)
        | None =>
            confidence_calibrations db ++
            [{| cc_project_id := project_id;
                cc_confidence_level := level;
                cc_human_review_recommended := human_review_recommended result;
                cc_disagreement_flag := disagreement_flag result;
                cc_calibration_notes := calibration_notes result;
                cc_total_feedback_count := metric_int (metrics result) "total_feedback";
                cc_disagreement_count := 0;
                cc_agreement_count := 0;
                cc_evidence_count := metric_int (metrics result) "evidence_count" |}]
        end in
      Ok (set_confidence_calibrations db rows, result)
  end.

End WithRuntime.

Record Badge : Type := mkBadge {
  label : string;
  color : string;
  icon : string;
  description : string
}.

Definition badge_LOW : Badge := {|
  label := "Low Confidence";
  color := "orange";
  icon := "⚠️";
  description := "Results require careful review. Human oversight recommended."
|}.

Definition badge_MEDIUM : Badge := {|
  label := "Medium Confidence";
  color := "blue";
  icon := "ℹ️";
  description := "Results based on available evidence. Review before acting."
|}.

Definition badge_HIGH : Badge := {|
  label := "High Confidence";
  color := "green";
  icon := "✓";
  description := "Strong evidence support. Standard review sufficient."
|}.

Definition badges : gmap string Badge :=
  <["LOW" := badge_LOW]> (<["MEDIUM" := badge_MEDIUM]> (<["HIGH" := badge_HIGH]> ∅)).

(** [badges.get(confidence_level, badges["LOW"])]. *)
Definition get_confidence_badge (confidence_level : string) : Badge :=
  default badge_LOW (badges !! confidence_level).

End Calibration.

(** ** main.py: similarity scores and novelty risk *)

Module Novelty.

(** [max(l)] and [max(l, key=...)]: the first of the greatest elements. *)
Definition py_max {A : Type} (lt : A -> A -> bool) (l : list A) : option A :=
  match l with
  | [] => None
  | x :: l' => Some (fold_left (fun m y => if lt m y then y else m) l' x)
  end.

(** Modelled from the spec: [similarity_engine.classify_novelty_risk] is
    imported by [main.py] and is not part of the sources.  Two threshold
    pairs, research (yellow at 0.50, red at 0.80) and patent (yellow at 0.45,
    red at 0.75), both boundaries compared with [>=]; the values are the
    fields of [Settings].  The evidence type ["patent"] selects the patent
    pair and ["paper"] the research pair; the model gives any other string
    the research pair, and nothing below is proved about such a string. *)
Definition classify_novelty_risk (settings : Settings) (score : Q)
    (evidence_type : string) : NoveltyRiskLevel :=
  let '(red, yellow) :=
    if String.eqb evidence_type "patent"
    then (patent_red_threshold settings, patent_yellow_threshold settings)
    else (research_red_threshold settings, research_yellow_threshold settings) in
  if Qleb red score then RED
  else if Qleb yellow score then YELLOW
  else GREEN.

(** Modelled from the spec: [crud.get_project] is not part of the sources;
    every caller treats its result as the stored project with that id, or
    nothing. *)
Definition crud_get_project (db : DB) (project_id : Z) : option Project :=
  head (filter (fun p => project_id_ p = project_id) (projects db)).

(** [db_project.analysis_state]: the state row of the project. *)
Definition analysis_state_of (db : DB) (project_id : Z) : option AnalysisState :=
  head (filter (fun a => as_project_id a = project_id) (analysis_states db)).

Definition update_analysis_state (db : DB) (project_id : Z)
    (f : AnalysisState -> AnalysisState) : DB :=
  set_analysis_states db
    (Calibration.update_first (fun a => bool_decide (as_project_id a = project_id)) f
       (analysis_states db)).

(** The fields of [SimilarityMatch] that come from modelled columns. *)
Record SimilarityMatch : Type := mkSimilarityMatch {
  sm_evidence_id : Z;
  sm_title : string;
  sm_evidence_type : string;
  sm_similarity_score : Q
}.

Record NoveltyRiskResponse : Type := mkNoveltyRiskResponse {
  nr_project_id : Z;
  novelty_risk : NoveltyRiskLevel;
  max_similarity_score : option Q;
  top_match : option SimilarityMatch;
  research_risk : NoveltyRiskLevel;
  research_max_score : option Q;
  research_matches : Z;
  patent_risk : NoveltyRiskLevel;
  patent_max_score : option Q;
  patent_matches : Z;
  total_evidence_compared : Z;
  nr_notes : string
}.

Record SimilarityComputationResponse : Type := mkSimilarityComputationResponse {
  sc_success : bool;
  sc_project_id : Z;
  scores_computed : Z;
  sc_max_score : option Q;
  sc_notes : string;
  sc_error : option string
}.

Definition not_found (project_id : Z) : Exception :=
  HTTPError (mkHTTPException HTTP_404_NOT_FOUND
               ("Project with id " +:+ pretty project_id +:+ " not found")).

Section WithRuntime.
Context `{Runtime}.

(** The body of the loop of [compute_similarity] for one evidence row whose
    embedding exists and whose cosine similarity with the idea is [score]. *)
Definition store_score (now : Z) (project_id : Z) (ev : CandidateEvidence) (score : Q)
    (scores : list SimilarityScore) : list SimilarityScore :=
  let score_int := int_of_product score 10000 in
  let same (s : SimilarityScore) :=
    bool_decide (ss_project_id s = project_id /\ ss_evidence_id s = ev_id ev) in
  match head (filter (fun s => same s = true) scores) with
  | Some _ =>
      Calibration.update_first same
        (fun s => {| ss_project_id := ss_project_id s;
                     ss_evidence_id := ss_evidence_id s;
                     ss_score := score_int;
                     ss_evidence_type := ss_evidence_type s;
                     ss_computed_at := now |}) scores
  | None =>
      scores ++ [{| ss_project_id := project_id;
                    ss_evidence_id := ev_id ev;
                    ss_score := score_int;
                    ss_evidence_type := ev_source_type ev;
                    ss_computed_at := now |}]
  end.

(** The embedding tables and [similarity_engine.cosine_similarity] are not
    part of the sources.  [idea_embedded] tells whether the idea has an
    embedding, and [cosine ev] is the cosine similarity of the idea with the
    evidence row [ev], [None] when the row has no embedding. *)
Definition compute_similarity (now : Z) (idea_embedded : bool)
    (cosine : CandidateEvidence -> option Q) (db : DB) (project_id : Z)
    : Result Exception (DB * SimilarityComputationResponse) :=
  match crud_get_project db project_id with
  | None => Raise (not_found project_id)
  | Some db_project =>
      if negb idea_embedded then
        Ok (db, mkSimilarityComputationResponse false project_id 0 None EmptyString
                  (Some "Idea embedding not found. Generate embeddings first."))
      else
        let evidence :=
          filter (fun e => ev_project_id e = project_id) (candidate_evidence db) in
        let '(scores, scores_computed, max_score) :=
          fold_left
            (fun '(scores, scores_computed, max_score) ev =>
               match cosine ev with
               | None => (scores, scores_computed, max_score)
               | Some score =>
                   (store_score now project_id ev score scores,
                    scores_computed + 1,
                    if Qltb max_score score then score else max_score)
               end)
            evidence (similarity_scores db, 0, 0%Q) in
        let db := set_similarity_scores db scores in
        let db :=
          update_analysis_state db project_id
            (fun a => {| as_project_id := as_project_id a;
                         as_similarity_computed := true;
                         as_novelty_risk := as_novelty_risk a;
                         as_max_similarity_score := Some (int_of_product max_score 10000);
                         as_top_evidence_id := as_top_evidence_id a;
                         as_notes := as_notes a |}) in
        Ok (db, mkSimilarityComputationResponse true project_id scores_computed
                  (if 0 <? scores_computed then Some max_score else None)
                  ("Computed " +:+ pretty scores_computed +:+ " similarity scores. Max: "
                   +:+ format_4f max_score)
                  None)
  end.

Definition get_novelty_risk (settings : Settings) (db : DB) (project_id : Z)
    : Result Exception (DB * NoveltyRiskResponse) :=
  match crud_get_project db project_id with
  | None => Raise (not_found project_id)
  | Some db_project =>
      let scores := filter (fun s => ss_project_id s = project_id) (similarity_scores db) in
      match py_max (fun a b => ss_score a <? ss_score b) scores with
      | None =>
          let db :=
            update_analysis_state db project_id
              (fun a => {| as_project_id := as_project_id a;
                           as_similarity_computed := as_similarity_computed a;
                           as_novelty_risk := UNKNOWN;
                           as_max_similarity_score := as_max_similarity_score a;
                           as_top_evidence_id := as_top_evidence_id a;
                           as_notes := as_notes a |}) in
          Ok (db, {| nr_project_id := project_id;
                     novelty_risk := UNKNOWN;
                     max_similarity_score := None;
                     top_match := None;
                     research_risk := UNKNOWN;
                     research_max_score := None;
                     research_matches := 0;
                     patent_risk := UNKNOWN;
                     patent_max_score := None;
                     patent_matches := 0;
                     total_evidence_compared := 0;
                     nr_notes := "Insufficient evidence to assess novelty risk." |})
      | Some top_score =>
          let research_scores := filter (fun s => ss_evidence_type s = "paper") scores in
          let patent_scores := filter (fun s => ss_evidence_type s = "patent") scores in
          let research_max := py_max Qltb (score_float <$> research_scores) in
          let patent_max := py_max Qltb (score_float <$> patent_scores) in
          let research_risk :=
            match research_max with
            | Some m => classify_novelty_risk settings m "paper"
            | None => UNKNOWN
            end in
          let patent_risk :=
            match patent_max with
            | Some m => classify_novelty_risk settings m "patent"
            | None => UNKNOWN
            end in
          let all_scores_float := score_float <$> scores in
          let max_score := default 0%Q (py_max Qltb all_scores_float) in
          let top_evidence :=
            head (filter (fun e => ev_id e = ss_evidence_id top_score)
                         (candidate_evidence db)) in
          let overall_risk :=
            classify_novelty_risk settings max_score (ss_evidence_type top_score) in
          let top_match :=
            (fun e => {| sm_evidence_id := ev_id e;
                         sm_title := ev_title e;
                         sm_evidence_type := ev_source_type e;
                         sm_similarity_score := score_float top_score |}) <$> top_evidence in
          let notes : Result Exception string :=
            match overall_risk with
            | RED =>
                match top_evidence with
                | Some e =>
                    Ok ("High similarity detected (" +:+ format_2f max_score
                        +:+ "). Significant overlap with '"
                        +:+ String.substring 0 50 (ev_title e) +:+ "...'.")
                | None => Raise (AttributeError "'NoneType' object has no attribute 'title'")
                end
            | YELLOW =>
                Ok ("Moderate similarity detected (" +:+ format_2f max_score
                    +:+ "). Review recommended.")
            | _ =>
                Ok ("Low similarity detected (" +:+ format_2f max_score
                    +:+ "). Idea appears to have novel aspects.")
            end in
          match notes with
          | Raise e => Raise e
          | Ok notes =>
              let db :=
                update_analysis_state db project_id
                  (fun a => {| as_project_id := as_project_id a;
                               as_similarity_computed := as_similarity_computed a;
                               as_novelty_risk := overall_risk;
                               as_max_similarity_score :=
                                 Some (int_of_product max_score 10000);
                               as_top_evidence_id := ev_id <$> top_evidence;
                               as_notes := notes |}) in
              Ok (db, {| nr_project_id := project_id;
                         novelty_risk := overall_risk;
                         max_similarity_score := Some max_score;
                         top_match := top_match;
                         research_risk := research_risk;
                         research_max_score := research_max;
                         research_matches := Z.of_nat (length research_scores);
                         patent_risk := patent_risk;
                         patent_max_score := patent_max;
                         patent_matches := Z.of_nat (length patent_scores);
                         total_evidence_compared := Z.of_nat (length scores);
                         nr_notes := notes |})
          end
      end
  end.

End WithRuntime.

End Novelty.

(** ** Sequences of operations on one database *)

Module Ops.

(** The business operations: an audit append, a feedback submission, a
    calibration, a similarity computation, a risk classification and a
    compliance check, each with the arguments of its call. *)
Inductive Op : Type :=
| OpLogAction (now : Z) (commit_ok : bool) (action_type entity_type : string)
    (entity_id : option Z) (user_id : option string) (metadata : option PyDictItems)
| OpSubmitFeedback (now : Z) (output_id output_type : string) (project_id : Z)
    (feedback_type : string) (user_id user_role comment ip_address : option string)
| OpCalibrate (project_id : Z)
| OpComputeSimilarity (now : Z) (idea_embedded : bool)
    (cosine : CandidateEvidence -> option Q) (project_id : Z)
| OpNoveltyRisk (project_id : Z)
| OpValidateFeatureAccess (feature_name : string).


(** The database a request leaves behind: what it committed, or the
    database it found when it raised. *)
Definition committed {E A : Type} (db : DB) (r : Result E (DB * A)) : DB :=
  match r with
  | Ok (db', _) => db'
  | Raise _ => db
  end.

Section WithRuntime.
Context `{Runtime}.

Definition run_op (settings : Settings) (db : DB) (op : Op) : DB :=
  match op with
  | OpLogAction now commit_ok action_type entity_type entity_id user_id metadata =>
      fst (Audit.log_action settings now commit_ok db action_type entity_type
             entity_id user_id metadata)
  | OpSubmitFeedback now output_id output_type project_id feedback_type
      user_id user_role comment ip_address =>
      fst (Feedback.submit_feedback now db output_id output_type project_id
             feedback_type user_id user_role comment ip_address)
  | OpCalibrate project_id =>
      committed db (Calibration.get_or_create_calibration db project_id)
  | OpComputeSimilarity now idea_embedded cosine project_id =>
      committed db (Novelty.compute_similarity now idea_embedded cosine db project_id)
  | OpNoveltyRisk project_id =>
      committed db (Novelty.get_novelty_risk settings db project_id)
  | OpValidateFeatureAccess feature_name =>
      match Compliance.validate_feature_access settings feature_name with
      | Ok _ => db
      | Raise _ => db
      end
  end.

Definition run_ops (settings : Settings) (db : DB) (ops : list Op) : DB :=
  fold_left (run_op settings) ops db.


End WithRuntime.

End Ops.

(** ** The statements of the specification *)

Module Spec.

(** Severity of a risk label: RED > YELLOW > GREEN > UNKNOWN. *)
Definition severity (r : NoveltyRiskLevel) : nat :=
  match r with
  | RED => 3
  | YELLOW => 2
  | GREEN => 1
  | UNKNOWN => 0
  end%nat.

Definition highest_severity (a b : NoveltyRiskLevel) : NoveltyRiskLevel :=
  if (severity a <? severity b)%nat then b else a.

(** The disagreement rate in the words of the specification:
    (DISAGREE + NOT_HELPFUL) / (DISAGREE + NOT_HELPFUL + AGREE + HELPFUL),
    and 0 when no record of these four kinds exists. *)
Definition count_kind (k : FeedbackType) (l : list UserFeedback) : Z :=
  count_where (fun f => fb_feedback_type f = k) l.

Definition spec_disagreement_rate (l : list UserFeedback) : Q :=
  let negative := count_kind DISAGREE l + count_kind NOT_HELPFUL l in
  let total := negative + count_kind AGREE l + count_kind HELPFUL l in
  if total =? 0 then 0%Q else (inject_Z negative / inject_Z total)%Q.

(** The rule table of the calibrator in the words of the specification: an
    ordered list of guarded outcomes, read first match first. *)
Record Inputs : Type := mkInputs {
  in_novelty_risk : NoveltyRiskLevel;
  in_evidence_count : Z;
  in_disagreement_rate : Q;
  in_restricted_context : bool
}.

Definition strong (i : Inputs) : bool :=
  (10 <=? in_evidence_count i) && Qltb (in_disagreement_rate i) (10 # 100).

Definition rule_table : list ((Inputs -> bool) * (Inputs -> ConfidenceLevel)) :=
  [ (fun i => bool_decide (in_novelty_risk i = RED) && (in_evidence_count i <? 3),
     fun _ => LOW);
    (fun i => Qltb (30 # 100) (in_disagreement_rate i),
     fun _ => LOW);
    (fun i => in_restricted_context i,
     fun i => if strong i then MEDIUM else LOW);
    (fun i => strong i,
     fun _ => MEDIUM);
    (fun i => 3 <=? in_evidence_count i,
     fun i => if Qltb (in_disagreement_rate i) (20 # 100) then MEDIUM else LOW);
    (fun _ => true,
     fun _ => LOW) ].

Fixpoint first_match {I O : Type} (rules : list ((I -> bool) * (I -> O))) (i : I)
    : option O :=
  match rules with
  | [] => None
  | (guard, outcome) :: rules' =>
      if guard i then Some (outcome i) else first_match rules' i
  end.

(** The inputs the calibrator derives for a stored project. *)
Definition inputs_of (db : DB) (project_id : Z) (project : Project) : Inputs := {|
  in_novelty_risk := Calibration.novelty_risk_of db project_id;
  in_evidence_count := Calibration.evidence_count_of db project_id;
  in_disagreement_rate :=
    Calibration.disagreement_rate_of (Calibration.feedback_list_of db project_id);
  in_restricted_context := bool_decide (project_type project = PATENT)
|}.

End Spec.

(** ** Concrete databases *)

Module Examples.

Definition compliant_settings : Settings := {|
  research_red_threshold := 80 # 100;
  research_yellow_threshold := 50 # 100;
  patent_red_threshold := 75 # 100;
  patent_yellow_threshold := 45 # 100;
  compliance_mode := true;
  audit_logs_enabled := true
|}.

Definition silent_settings : Settings := {|
  research_red_threshold := 80 # 100;
  research_yellow_threshold := 50 # 100;
  patent_red_threshold := 75 # 100;
  patent_yellow_threshold := 45 # 100;
  compliance_mode := false;
  audit_logs_enabled := false
|}.

Definition evidence_rows (project_id : Z) (n : nat) : list CandidateEvidence :=
  (fun i => mkCandidateEvidence (Z.of_nat i) project_id "paper" "Prior work") <$> seq 1 n.

Definition feedback_row (id : Z) (output_id : string) (project_id : Z)
    (kind : FeedbackType) : UserFeedback := {|
  fb_id := id;
  fb_output_id := output_id;
  fb_output_type := CLAIM;
  fb_project_id := project_id;
  fb_user_id := None;
  fb_user_role := None;
  fb_feedback_type := kind;
  fb_comment := None;
  fb_created_at := id;
  fb_ip_hash := None
|}.

(** A patent project with twelve evidence rows and no feedback. *)
Definition patent_db : DB := {|
  projects := [mkProject 1 "Valve" PATENT None];
  candidate_evidence := evidence_rows 1 12;
  similarity_scores := [];
  analysis_states := [];
  user_feedback := [];
  confidence_calibrations := [];
  audit_logs := []
|}.

(** A research project in the domain [domain] with twelve evidence rows and
    no feedback. *)
Definition domain_db (domain : string) : DB := {|
  projects := [mkProject 1 "Contract review" RESEARCH (Some domain)];
  candidate_evidence := evidence_rows 1 12;
  similarity_scores := [];
  analysis_states := [];
  user_feedback := [];
  confidence_calibrations := [];
  audit_logs := []
|}.

(** A project whose only feedback is one NEEDS_REVISION record. *)
Definition needs_revision_db : DB := {|
  projects := [mkProject 1 "Valve" RESEARCH None];
  candidate_evidence := evidence_rows 1 12;
  similarity_scores := [];
  analysis_states := [];
  user_feedback := [feedback_row 1 "claim_1" 1 NEEDS_REVISION];
  confidence_calibrations := [];
  audit_logs := []
|}.

(** A paper scored 0.78 and a patent scored 0.76 for one project. *)
Definition mixed_scores_db : DB := {|
  projects := [mkProject 1 "Valve" MIXED None];
  candidate_evidence :=
    [mkCandidateEvidence 1 1 "paper" "A survey of valves";
     mkCandidateEvidence 2 1 "patent" "Valve assembly"];
  similarity_scores :=
    [mkSimilarityScore 1 1 7800 "paper" 0; mkSimilarityScore 1 2 7600 "patent" 0];
  analysis_states := [mkAnalysisState 1 true UNKNOWN None None "No AI analysis performed yet."];
  user_feedback := [];
  confidence_calibrations := [];
  audit_logs := []
|}.

(** A patent scored 0.76 above a paper scored 0.70. *)
Definition patent_top_db : DB := {|
  projects := [mkProject 1 "Valve" MIXED None];
  candidate_evidence :=
    [mkCandidateEvidence 1 1 "paper" "A survey of valves";
     mkCandidateEvidence 2 1 "patent" "Valve assembly"];
  similarity_scores :=
    [mkSimilarityScore 1 1 7000 "paper" 0; mkSimilarityScore 1 2 7600 "patent" 0];
  analysis_states := [];
  user_feedback := [];
  confidence_calibrations := [];
  audit_logs := []
|}.

(** One record with a comment for the output ["claim_1"]. *)
Definition commented_db : DB :=
  (Feedback.submit_feedback 4 needs_revision_db "claim_1" "CLAIM" 1 "AGREE"
     None None (Some "Matches the cited patent") None).1.

(** A score of 0.90 whose evidence row is not stored. *)
Definition orphan_score_db : DB := {|
  projects := [mkProject 1 "Valve" MIXED None];
  candidate_evidence := [];
  similarity_scores := [mkSimilarityScore 1 7 9000 "paper" 0];
  analysis_states := [];
  user_feedback := [];
  confidence_calibrations := [];
  audit_logs := []
|}.

(** The patent project after one calibration. *)
Definition calibrated_db : DB := Ops.run_ops default_settings patent_db [Ops.OpCalibrate 1].

(** The audit appends of [n] project events at times 1 to [n]. *)
Definition project_events (n : nat) : list Ops.Op :=
  (fun i => Ops.OpLogAction (Z.of_nat i) true "PROJECT_CREATED" "Project" (Some 1)
              None None)
    <$> seq 1 n.


(** [n] DISAGREE submissions for the output ["claim_1"] of project 1. *)
Definition disagree_submissions (n : nat) : list Ops.Op :=
  (fun i => Ops.OpSubmitFeedback (Z.of_nat i) "claim_1" "CLAIM" 1 "DISAGREE"
              None None None None) <$> seq 1 n.

End Examples.

(** ** main.py: the endpoints of feedback, confidence, scores and compliance *)

Module Main.

Record FeedbackRequest : Type := mkFeedbackRequest {
  req_output_id : string;
  req_output_type : string;
  req_feedback_type : string;
  req_comment : option string
}.

Record FeedbackResponse : Type := mkFeedbackResponse {
  resp_success : bool;
  resp_feedback_id : Z;
  resp_message : string;
  resp_timestamp : Z
}.

(** [confidence_level] is a member of the schema enumeration
    [ConfidenceLevelResponse], which has the members and values of
    [ConfidenceLevel]. *)
Record ConfidenceCalibrationResponse : Type := mkConfidenceCalibrationResponse {
  ccr_project_id : Z;
  ccr_confidence_level : ConfidenceLevel;
  ccr_human_review_recommended : bool;
  ccr_disagreement_flag : bool;
  ccr_calibration_notes : list string;
  ccr_metrics : gmap string Calibration.MetricValue;
  ccr_badge_properties : Calibration.Badge;
  ccr_timestamp : Z
}.

Record SimilarityListResponse : Type := mkSimilarityListResponse {
  sl_project_id : Z;
  sl_matches : list Novelty.SimilarityMatch;
  sl_total : Z
}.

Section WithRuntime.
Context `{Runtime}.

Definition submit_feedback (now : Z) (db : DB) (request : FeedbackRequest)
    (project_id : Z) : Result Exception (DB * FeedbackResponse) :=
  let '(db, result) :=
    Feedback.submit_feedback now db (req_output_id request) (req_output_type request)
      project_id (req_feedback_type request) None None (req_comment request) None in
  if negb (Feedback.success result) then
    Raise (HTTPError (mkHTTPException HTTP_400_BAD_REQUEST (Feedback.message result)))
  else
    Ok (db, {| resp_success := true;
               resp_feedback_id := Feedback.feedback_id result;
               resp_message := Feedback.message result;
               resp_timestamp := Feedback.timestamp result |}).

Definition get_project_confidence (now : Z) (db : DB) (project_id : Z)
    : Result Exception (DB * ConfidenceCalibrationResponse) :=
  match Calibration.get_or_create_calibration db project_id with
  | Raise e => Raise e
  | Ok (db, result) =>
      match ConfidenceLevel_of (Calibration.confidence_level result) with
      | None => Raise (ValueError (Calibration.confidence_level result))
      | Some level =>
          Ok (db, {| ccr_project_id := project_id;
                     ccr_confidence_level := level;
                     ccr_human_review_recommended :=
                       Calibration.human_review_recommended result;
                     ccr_disagreement_flag := Calibration.disagreement_flag result;
                     ccr_calibration_notes := Calibration.calibration_notes result;
                     ccr_metrics := Calibration.metrics result;
                     ccr_badge_properties :=
                       Calibration.get_confidence_badge
                         (Calibration.confidence_level result);
                     ccr_timestamp := now |})
      end
  end.

End WithRuntime.

Definition list_similarity_scores (db : DB) (project_id : Z) (limit : Z)
    : Result Exception SimilarityListResponse :=
  match Novelty.crud_get_project db project_id with
  | None => Raise (Novelty.not_found project_id)
  | Some db_project =>
      let scores :=
        sql_limit limit
          (order_by_desc ss_score
             (filter (fun s => ss_project_id s = project_id) (similarity_scores db))) in
      let matches :=
        omap
          (fun s =>
             (fun evidence => {|
                Novelty.sm_evidence_id := ev_id evidence;
                Novelty.sm_title := ev_title evidence;
                Novelty.sm_evidence_type := ev_source_type evidence;
                Novelty.sm_similarity_score := score_float s |})
             <$> head (filter (fun e => ev_id e = ss_evidence_id s)
                              (candidate_evidence db)))
          scores in
      Ok {| sl_project_id := project_id;
            sl_matches := matches;
            sl_total := Z.of_nat (length matches) |}
  end.

Definition get_compliance_status (settings : Settings) : Compliance.ComplianceStatus :=
  Compliance.get_system_compliance_status settings.

End Main.

(** * Properties *)

Import Compliance Audit Feedback Calibration Novelty Ops Spec Examples.

(** ** Helper lemmas *)

Lemma Qltb_lt (x y : Q) : Qltb x y = true <-> (x < y)%Q.
Proof. unfold Qltb, Qlt. apply Z.ltb_lt. Qed.

Lemma Qleb_le (x y : Q) : Qleb x y = true <-> (x <= y)%Q.
Proof. unfold Qleb, Qle. apply Z.leb_le. Qed.

Lemma Qltb_proper_r (x y y' : Q) : (y == y')%Q -> Qltb x y = Qltb x y'.
Proof.
  intros Hy. apply eq_true_iff_eq. rewrite !Qltb_lt. now rewrite Hy.
Qed.

Lemma ConfidenceLevel_of_value (c : ConfidenceLevel) :
  ConfidenceLevel_of (ConfidenceLevel_value c) = Some c.
Proof. now destruct c. Qed.

Lemma FeedbackType_of_value (t : FeedbackType) :
  FeedbackType_of (FeedbackType_value t) = Some t.
Proof. now destruct t. Qed.

Lemma OutputType_of_value (t : OutputType) :
  OutputType_of (OutputType_value t) = Some t.
Proof. now destruct t. Qed.

(** The level of a stored project is the one the rule block computes. *)
Lemma apply_rules_low_or_medium risk ec rate hd restricted :
  (apply_rules risk ec rate hd restricted).1 = LOW \/
  (apply_rules risk ec rate hd restricted).1 = MEDIUM.
Proof. unfold apply_rules. repeat case_match; simpl; auto. Qed.

Lemma calculate_confidence_level `{Runtime} db project_id project :
  get_project db project_id = Some project ->
  confidence_level (calculate_confidence db project_id) =
  ConfidenceLevel_value
    (apply_rules (novelty_risk_of db project_id) (evidence_count_of db project_id)
       (disagreement_rate_of (feedback_list_of db project_id))
       (Qltb DISAGREEMENT_HIGH_THRESHOLD
          (disagreement_rate_of (feedback_list_of db project_id)))
       (bool_decide (project_type project = PATENT))).1.
Proof.
  intros Hp. unfold calculate_confidence. rewrite Hp.
  now destruct (apply_rules _ _ _ _ _).
Qed.

(** ** The model on the scenarios of the specification *)

(** Threshold boundaries: a research score of 0.80 is RED and 0.7999 is
    YELLOW, 0.50 is YELLOW and 0.4999 is GREEN; a patent score of 0.75 is RED
    and 0.45 is YELLOW. *)
Example threshold_boundaries :
  (fun '(score, kind) =>
     classify_novelty_risk default_settings
       (score_float (mkSimilarityScore 1 1 score kind 0)) kind)
  <$> [(8000, "paper"); (7999, "paper"); (5000, "paper"); (4999, "paper");
       (7500, "patent"); (4500, "patent"); (4499, "patent")]
  = [RED; YELLOW; YELLOW; GREEN; RED; YELLOW; GREEN].
Proof. reflexivity. Qed.

(** Four DISAGREE and six AGREE records: the rate is 0.4, rule 2 fires and
    the level is LOW with twelve evidence rows. *)
Example high_disagreement_is_low :
  let db :=
    set_user_feedback (domain_db "AI")
      (((fun i => feedback_row (Z.of_nat i) "claim_1" 1 DISAGREE) <$> seq 1 4) ++
       ((fun i => feedback_row (Z.of_nat i) "claim_1" 1 AGREE) <$> seq 5 6)) in
  (disagreement_rate_of (feedback_list_of db 1) == 4 # 10)%Q /\
  disagreement_rate (get_feedback_for_output db "claim_1") = (400 # 1000)%Q /\
  confidence_level (calculate_confidence db 1) = "LOW" /\
  disagreement_flag (calculate_confidence db 1) = true.
Proof. repeat split. Qed.

(** ** Compliance gate *)

(** C8: the feature check raises exactly when compliance mode is active and
    the feature is listed in [RESTRICTED_FEATURES] with
    [allowed_in_compliance] false; with compliance mode inactive it succeeds
    for every feature name; a feature name absent from the table never
    raises; and the detail of every raised error carries the reason of the
    table. *)
Theorem validate_feature_access_raises_iff (settings : Settings) (feature_name : string) :
  ((exists e, validate_feature_access settings feature_name = Raise e) <->
   compliance_mode settings = true /\
   exists rule, RESTRICTED_FEATURES !! feature_name = Some rule /\
                allowed_in_compliance rule = false) /\
  (compliance_mode settings = false ->
   validate_feature_access settings feature_name = Ok tt) /\
  (RESTRICTED_FEATURES !! feature_name = None ->
   validate_feature_access settings feature_name = Ok tt) /\
  (forall e, validate_feature_access settings feature_name = Raise e ->
   exists rule, RESTRICTED_FEATURES !! feature_name = Some rule /\
                status_code e = HTTP_403_FORBIDDEN /\
                detail e = "Compliance Restriction: " +:+ reason rule).
Proof.
  unfold validate_feature_access, is_compliance_mode_active.
  destruct (compliance_mode settings) eqn:Hmode;
    destruct (RESTRICTED_FEATURES !! feature_name) as [[allowed why]|] eqn:Hrule;
    simpl; try destruct allowed; simpl;
    (split; [split|split; [|split]]).
  all: try (intros [e He]; discriminate He).
  all: try (intros [Hm (rule & Hr & Ha)];
            first [discriminate Hm | discriminate Hr
                  | injection Hr as <-; discriminate Ha]).
  all: try (intros; discriminate).
  all: try (intros; reflexivity).
  - intros _. split; [reflexivity|]. eexists; split; reflexivity.
  - intros _. eexists; reflexivity.
  - intros e [= <-]. eexists; repeat split; reflexivity.
Qed.

Lemma validate_feature_access_raises_iff_witness :
  exists e, validate_feature_access compliant_settings "PATENT_CLAIM_GENERATION" = Raise e.
Proof.
  apply (proj1 (validate_feature_access_raises_iff compliant_settings
                  "PATENT_CLAIM_GENERATION")).
  split; [reflexivity|].
  eexists. split; [vm_compute; reflexivity | reflexivity].
Defined.

(** ** Audit log *)

(** C10: with [audit_logs_enabled] false, [log_action] returns [True] for
    every input, whatever the action type, and leaves the database as it
    found it. *)
Theorem log_action_disabled `{Runtime} (settings : Settings) (now : Z)
    (commit_ok : bool) (db : DB) (action_type entity_type : string)
    (entity_id : option Z) (user_id : option string)
    (metadata : option PyDictItems) :
  audit_logs_enabled settings = false ->
  log_action settings now commit_ok db action_type entity_type entity_id user_id
    metadata
  = (db, true).
Proof. intros Hoff. unfold log_action. now rewrite Hoff. Qed.

Lemma log_action_disabled_witness :
  ActionType_of "NOT_AN_ACTION" = None /\
  log_action silent_settings 7 true empty_db "NOT_AN_ACTION" "Project" (Some 1)
    None None
  = (empty_db, true).
Proof.
  split; [reflexivity|].
  apply (log_action_disabled silent_settings 7 true empty_db "NOT_AN_ACTION" "Project"
           (Some 1) None None).
  reflexivity.
Defined.

(** ** Confidence calibrator *)

(** C1: for a project in a restricted context the calibrator returns LOW or
    MEDIUM, whatever the evidence, the novelty risk and the feedback are. *)
Theorem restricted_context_never_high `{Runtime} (db : DB) (project_id : Z)
    (project : Project) :
  get_project db project_id = Some project ->
  project_type project = PATENT ->
  confidence_level (calculate_confidence db project_id) = "LOW" \/
  confidence_level (calculate_confidence db project_id) = "MEDIUM".
Proof.
  intros Hp Hrestricted.
  rewrite (calculate_confidence_level db project_id project Hp).
  rewrite bool_decide_eq_true_2 by exact Hrestricted.
  destruct (apply_rules_low_or_medium (novelty_risk_of db project_id)
              (evidence_count_of db project_id)
              (disagreement_rate_of (feedback_list_of db project_id))
              (Qltb DISAGREEMENT_HIGH_THRESHOLD
                 (disagreement_rate_of (feedback_list_of db project_id)))
              true) as [-> | ->]; [left | right]; reflexivity.
Qed.

Lemma restricted_context_never_high_witness :
  confidence_level (calculate_confidence patent_db 1) = "LOW" \/
  confidence_level (calculate_confidence patent_db 1) = "MEDIUM".
Proof.
  apply (restricted_context_never_high patent_db 1 (mkProject 1 "Valve" PATENT None));
    reflexivity.
Defined.

Lemma first_match_at {I O : Type} (rules : list ((I -> bool) * (I -> O))) (x : I)
    (i : nat) guard outcome :
  rules !! i = Some (guard, outcome) ->
  guard x = true ->
  (forall (j : nat) g o, (j < i)%nat -> rules !! j = Some (g, o) -> g x = false) ->
  first_match rules x = Some (outcome x).
Proof.
  revert i. induction rules as [|[g0 o0] rules IH]; intros i Hi Hg Hearlier.
  - discriminate Hi.
  - destruct i as [|i]; simpl in *.
    + injection Hi as -> ->. now rewrite Hg.
    + rewrite (Hearlier 0%nat g0 o0) by (lia || reflexivity).
      apply (IH i); [exact Hi | exact Hg |].
      intros j g o Hj Hl. apply (Hearlier (S j) g o); [lia | exact Hl].
Qed.

(** C6: the level the calibrator returns for a stored project is the outcome
    of the first rule of the rule table whose guard holds: (1) RED risk with
    fewer than 3 evidence rows gives LOW; (2) a disagreement rate above 0.30
    gives LOW; (3) a restricted context gives MEDIUM with at least 10
    evidence rows and a rate below 0.10, else LOW; (4) at least 10 evidence
    rows and a rate below 0.10 give MEDIUM; (5) at least 3 evidence rows give
    MEDIUM with a rate below 0.20, else LOW; (6) otherwise LOW. *)
Theorem calibrator_is_ordered_decision_list `{Runtime} (db : DB) (project_id : Z)
    (project : Project) :
  get_project db project_id = Some project ->
  Some (confidence_level (calculate_confidence db project_id)) =
  ConfidenceLevel_value <$> first_match rule_table (inputs_of db project_id project) /\
  forall (i : nat) guard outcome,
    rule_table !! i = Some (guard, outcome) ->
    guard (inputs_of db project_id project) = true ->
    (forall (j : nat) g o, (j < i)%nat -> rule_table !! j = Some (g, o) ->
                           g (inputs_of db project_id project) = false) ->
    confidence_level (calculate_confidence db project_id) =
    ConfidenceLevel_value (outcome (inputs_of db project_id project)).
Proof.
  intros Hp.
  assert (Some (confidence_level (calculate_confidence db project_id)) =
          ConfidenceLevel_value <$>
            first_match rule_table (inputs_of db project_id project)) as Hfirst;
    [| split; [exact Hfirst|];
       intros i guard outcome Hi Hg Hearlier;
       rewrite (first_match_at rule_table _ i guard outcome Hi Hg Hearlier) in Hfirst;
       now injection Hfirst].
  rewrite (calculate_confidence_level db project_id project Hp).
  unfold inputs_of, rule_table, first_match, strong, apply_rules; simpl.
  unfold EVIDENCE_COUNT_LOW_THRESHOLD, EVIDENCE_COUNT_MEDIUM_THRESHOLD,
    DISAGREEMENT_HIGH_THRESHOLD.
  set (rate := disagreement_rate_of (feedback_list_of db project_id)).
  rewrite (Qltb_proper_r rate (10 # 100) (1 # 10)) by reflexivity.
  rewrite (Qltb_proper_r rate (20 # 100) (2 # 10)) by reflexivity.
  repeat case_match; simpl in *; congruence.
Qed.

Lemma calibrator_is_ordered_decision_list_witness :
  Some (confidence_level (calculate_confidence patent_db 1)) =
  ConfidenceLevel_value <$>
    first_match rule_table (inputs_of patent_db 1 (mkProject 1 "Valve" PATENT None)).
Proof.
  apply (proj1 (calibrator_is_ordered_decision_list patent_db 1
                  (mkProject 1 "Valve" PATENT None) eq_refl)).
Defined.

(** The calibrator never returns a string that [ConfidenceLevel] rejects. *)
Lemma calculate_confidence_level_parses `{Runtime} db project_id :
  exists level,
    ConfidenceLevel_of (confidence_level (calculate_confidence db project_id)) = Some level.
Proof.
  destruct (get_project db project_id) as [project|] eqn:Hp.
  - rewrite (calculate_confidence_level db project_id project Hp).
    eexists. apply ConfidenceLevel_of_value.
  - unfold calculate_confidence. rewrite Hp. eexists. apply ConfidenceLevel_of_value.
Qed.

(** C9, as the code has it: for a project id with no stored project the
    calibration raises no error; it returns LOW with human review
    recommended, no disagreement flag, the single note "Project not found"
    and no metrics, and the projects, evidence, similarity, analysis-state,
    feedback and audit tables are left as they were. *)
Theorem unknown_project_calibration `{Runtime} (db : DB) (project_id : Z) :
  get_project db project_id = None ->
  let not_found_result := {|
    confidence_level := "LOW";
    human_review_recommended := true;
    disagreement_flag := false;
    calibration_notes := ["Project not found"];
    metrics := ∅ |} in
  calculate_confidence db project_id = not_found_result /\
  exists db',
    get_or_create_calibration db project_id = Ok (db', not_found_result) /\
    projects db' = projects db /\
    candidate_evidence db' = candidate_evidence db /\
    similarity_scores db' = similarity_scores db /\
    analysis_states db' = analysis_states db /\
    user_feedback db' = user_feedback db /\
    audit_logs db' = audit_logs db.
Proof.
  intros Hp not_found_result.
  assert (calculate_confidence db project_id = not_found_result) as Hcalc.
  { unfold calculate_confidence. now rewrite Hp. }
  split; [exact Hcalc|].
  unfold get_or_create_calibration. rewrite Hcalc. simpl.
  eexists. split; [reflexivity|]. repeat split.
Qed.

Lemma unknown_project_calibration_witness :
  calculate_confidence empty_db 42 =
  mkCalibrationResult "LOW" true false ["Project not found"] ∅.
Proof.
  apply (proj1 (unknown_project_calibration empty_db 42 eq_refl)).
Defined.

(** C9, counterexample: on a database without any project the calibration
    of project 42 returns a result instead of raising, and it stores a
    calibration row for the unknown project. *)
Lemma unknown_project_calibration_is_stored :
  get_project empty_db 42 = None /\
  get_or_create_calibration empty_db 42 =
  Ok (set_confidence_calibrations empty_db
        [{| cc_project_id := 42;
            cc_confidence_level := LOW;
            cc_human_review_recommended := true;
            cc_disagreement_flag := false;
            cc_calibration_notes := ["Project not found"];
            cc_total_feedback_count := 0;
            cc_disagreement_count := 0;
            cc_agreement_count := 0;
            cc_evidence_count := 0 |}],
      mkCalibrationResult "LOW" true false ["Project not found"] ∅).
Proof. split; reflexivity. Qed.

(** C4, the code at the failing input: a research project whose domain is
    LEGAL, MEDICAL or FINANCIAL (or any other string) with twelve evidence
    rows and no feedback is not treated as a restricted context: the level
    is MEDIUM, no human review is recommended and the note of the restricted
    context is absent, while the same project of type PATENT gets the review
    recommendation and the note. *)
Theorem restricted_domain_ignored `{Runtime} (domain : string) :
  confidence_level (calculate_confidence (domain_db domain) 1) = "MEDIUM" /\
  human_review_recommended (calculate_confidence (domain_db domain) 1) = false /\
  (NOTE_PATENT_CONTEXT ∉ calibration_notes (calculate_confidence (domain_db domain) 1)) /\
  human_review_recommended (calculate_confidence patent_db 1) = true /\
  (NOTE_PATENT_CONTEXT ∈ calibration_notes (calculate_confidence patent_db 1)).
Proof.
  repeat split; try reflexivity.
  - cbn. intros Hin. apply list_elem_of_singleton in Hin. discriminate Hin.
  - cbn. apply list_elem_of_here.
Qed.

(** ** Feedback aggregator *)

Lemma insert_desc_perm {A : Type} (key : A -> Z) (x : A) (l : list A) :
  insert_desc key x l ≡ₚ x :: l.
Proof.
  induction l as [|y l IH]; simpl.
  - reflexivity.
  - destruct (key x <? key y).
    + rewrite IH. apply Permutation_swap.
    + reflexivity.
Qed.

Lemma order_by_desc_perm {A : Type} (key : A -> Z) (l : list A) :
  order_by_desc key l ≡ₚ l.
Proof.
  induction l as [|x l IH]; simpl.
  - reflexivity.
  - unfold order_by_desc in *. simpl. rewrite insert_desc_perm. now rewrite IH.
Qed.

Lemma count_where_perm {A : Type} (P : A -> Prop) `{!forall x, Decision (P x)}
    (l l' : list A) :
  l ≡ₚ l' -> count_where P l = count_where P l'.
Proof. intros Hl. unfold count_where. now rewrite Hl. Qed.


Lemma count_where_nonneg {A : Type} (P : A -> Prop) `{!forall x, Decision (P x)}
    (l : list A) :
  0 <= count_where P l.
Proof. unfold count_where. lia. Qed.

(** Membership in [disagree_types] counts DISAGREE, NOT_HELPFUL and
    NEEDS_REVISION records. *)
Lemma count_disagree_types (l : list UserFeedback) :
  count_where (fun f => fb_feedback_type f ∈ disagree_types) l =
  count_kind DISAGREE l + count_kind NOT_HELPFUL l + count_kind NEEDS_REVISION l.
Proof.
  unfold count_kind, count_where, disagree_types.
  induction l as [|f l IH]; [reflexivity|].
  rewrite !filter_cons.
  destruct (fb_feedback_type f) eqn:Hk;
    repeat case_decide; try discriminate; simpl length;
    try lia.
  all: exfalso;
    match goal with
    | Hin : _ ∈ _ |- _ =>
        apply list_elem_of_In in Hin; simpl in Hin; intuition discriminate
    | Hout : ¬ _ ∈ _ |- _ =>
        apply Hout, list_elem_of_In; simpl; auto
    end.
Qed.

(** C3, as the code has it: the rate of the summary of an output is
    (DISAGREE + NOT_HELPFUL) / (DISAGREE + NOT_HELPFUL + AGREE + HELPFUL)
    over the records of that output, rounded to three decimals, and 0 when
    the output has no record of these four kinds; the rate the calibrator
    consumes is (DISAGREE + NOT_HELPFUL + NEEDS_REVISION) divided by the
    number of all feedback records of the project, and 0 when the project
    has none; the calibrator raises its disagreement flag when that rate is
    above 0.30 and reports the rate rounded to three decimals, and the
    project statistics report the same rate, rounded likewise. *)
Theorem disagreement_rates_of_the_code `{Runtime} (db : DB) :
  (forall output_id : string,
     let l := filter (fun f => fb_output_id f = output_id) (user_feedback db) in
     let negative := count_kind DISAGREE l + count_kind NOT_HELPFUL l in
     let total := negative + count_kind AGREE l + count_kind HELPFUL l in
     disagreement_rate (get_feedback_for_output db output_id) =
     if total =? 0 then 0%Q else round3 (inject_Z negative / inject_Z total)%Q) /\
  (forall project_id : Z,
     let l := feedback_list_of db project_id in
     let disagreements :=
       count_kind DISAGREE l + count_kind NOT_HELPFUL l + count_kind NEEDS_REVISION l in
     let total := Z.of_nat (length l) in
     disagreement_rate_of l =
       (if total =? 0 then 0%Q else (inject_Z disagreements / inject_Z total)%Q) /\
     forall project : Project,
       get_project db project_id = Some project ->
       disagreement_flag (calculate_confidence db project_id) =
         Qltb (30 # 100) (disagreement_rate_of l) /\
       metrics (calculate_confidence db project_id) !! "disagreement_rate" =
         Some (MFloat (round3 (disagreement_rate_of l)))) /\
  (forall project_id : Z,
     overall_disagreement_rate (get_project_feedback db project_id) =
     round3 (disagreement_rate_of (feedback_list_of db project_id))).
Proof.
  split; [|split].
  - intros output_id l negative total.
    unfold get_feedback_for_output; simpl. unfold calculate_disagreement_rate.
    fold l.
    rewrite !(count_where_perm _ _ _ (order_by_desc_perm fb_created_at l)).
    fold (count_kind DISAGREE l) (count_kind NOT_HELPFUL l)
         (count_kind AGREE l) (count_kind HELPFUL l).
    fold negative.
    replace (count_kind AGREE l + count_kind HELPFUL l + negative) with total
      by (unfold total; lia).
    reflexivity.
  - intros project_id l disagreements total. split.
    + unfold disagreement_rate_of. fold total.
      rewrite count_disagree_types. reflexivity.
    + intros project Hp. unfold calculate_confidence. rewrite Hp.
      fold l. destruct (apply_rules _ _ _ _ _) as [level rule_notes]. simpl.
      split; [reflexivity|].
      rewrite lookup_insert_ne by discriminate.
      apply lookup_insert_eq.
  - intros project_id. unfold get_project_feedback; simpl. f_equal.
    fold (feedback_list_of db project_id).
    set (l := feedback_list_of db project_id).
    pose proof (order_by_desc_perm fb_created_at l) as Hperm.
    unfold disagreement_rate_of.
    rewrite (count_where_perm _ _ _ Hperm), (Permutation_length Hperm).
    destruct (order_by_desc fb_created_at l) as [|f sorted] eqn:Hsorted.
    + apply Permutation_nil in Hperm. now rewrite Hperm.
    + destruct l as [|g l']; [|reflexivity].
      symmetry in Hperm. now apply Permutation_nil_cons in Hperm.
Qed.

Lemma disagreement_rates_of_the_code_witness :
  disagreement_flag (calculate_confidence needs_revision_db 1) =
  Qltb (30 # 100) (disagreement_rate_of (feedback_list_of needs_revision_db 1)).
Proof.
  apply (proj1 (proj2 (proj1 (proj2 (disagreement_rates_of_the_code needs_revision_db))
                         1)
                  (mkProject 1 "Valve" RESEARCH None) eq_refl)).
Defined.

(** C3, counterexample: for a project whose only feedback is one
    NEEDS_REVISION record the formula of the specification gives 0, and the
    rate the calibrator consumes is 1, which raises the disagreement flag
    and forces LOW. *)
Lemma needs_revision_counts_as_disagreement :
  spec_disagreement_rate (feedback_list_of needs_revision_db 1) = 0%Q /\
  disagreement_rate_of (feedback_list_of needs_revision_db 1) = 1%Q /\
  ~ (disagreement_rate_of (feedback_list_of needs_revision_db 1) ==
     spec_disagreement_rate (feedback_list_of needs_revision_db 1))%Q /\
  disagreement_flag (calculate_confidence needs_revision_db 1) = true /\
  confidence_level (calculate_confidence needs_revision_db 1) = "LOW".
Proof. repeat split; try reflexivity. intros Heq. discriminate Heq. Qed.







(** ** Novelty risk *)

Section PyMax.
Context {A : Type} (key : A -> Z).

Let lt (a b : A) : bool := key a <? key b.

Lemma fold_max_elem (l : list A) (x : A) :
  fold_left (fun m y => if lt m y then y else m) l x ∈ x :: l.
Proof.
  revert x. induction l as [|y l IH]; intros x; simpl.
  - apply list_elem_of_here.
  - destruct (lt x y).
    + apply list_elem_of_further, IH.
    + specialize (IH x). apply elem_of_cons in IH as [-> | Hin].
      * apply list_elem_of_here.
      * now do 2 apply list_elem_of_further.
Qed.

Lemma fold_max_upper (l : list A) (x : A) :
  forall z, z ∈ x :: l ->
  key z <= key (fold_left (fun m y => if lt m y then y else m) l x).
Proof.
  revert x. induction l as [|y l IH]; intros x z Hz; simpl.
  - apply elem_of_cons in Hz as [-> | Hz]; [lia|]. now apply elem_of_nil in Hz.
  - destruct (lt x y) eqn:Hxy; unfold lt in Hxy;
      [apply Z.ltb_lt in Hxy; rename Hxy into Hlt
      |apply Z.ltb_ge in Hxy; rename Hxy into Hge].
    + apply elem_of_cons in Hz as [-> | Hz].
      * etransitivity; [|apply (IH y y), list_elem_of_here]. lia.
      * now apply IH.
    + apply elem_of_cons in Hz as [-> | Hz].
      * apply IH, list_elem_of_here.
      * apply elem_of_cons in Hz as [-> | Hz].
        -- etransitivity; [exact Hge|]. apply IH, list_elem_of_here.
        -- apply IH. now apply list_elem_of_further.
Qed.

Lemma fold_max_first (l : list A) (x : A) :
  let m := fold_left (fun m y => if lt m y then y else m) l x in
  (m = x /\ Forall (fun y => key y <= key x) l) \/
  (exists before after,
     l = before ++ m :: after /\ key x < key m /\
     Forall (fun y => key y < key m) before /\
     Forall (fun y => key y <= key m) after).
Proof.
  revert x. induction l as [|y l IH]; intros x; simpl.
  - left. split; [reflexivity | constructor].
  - destruct (lt x y) eqn:Hxy; unfold lt in Hxy;
      [apply Z.ltb_lt in Hxy | apply Z.ltb_ge in Hxy].
    + right. destruct (IH y) as [[Hm Hall] | (before & after & Hl & Hlt & Hb & Ha)].
      * exists [], l. simpl in Hm. rewrite Hm.
        split; [reflexivity|]. split; [exact Hxy|]. split; [constructor | exact Hall].
      * exists (y :: before), after. simpl in Hl, Hlt, Hb, Ha.
        split; [simpl; now rewrite <- Hl|]. split; [lia|].
        split; [constructor; assumption | exact Ha].
    + destruct (IH x) as [[Hm Hall] | (before & after & Hl & Hlt & Hb & Ha)].
      * left. split; [exact Hm | constructor; assumption].
      * right. exists (y :: before), after. simpl in Hl, Hlt, Hb, Ha.
        split; [simpl; now rewrite <- Hl|]. split; [exact Hlt|].
        split; [constructor; [lia | exact Hb] | exact Ha].
Qed.

(** [max(l, key=...)] is the first of the greatest elements: every element
    before it is strictly smaller. *)
Lemma py_max_first (l : list A) (m : A) :
  py_max lt l = Some m ->
  exists before after,
    l = before ++ m :: after /\
    Forall (fun y => key y < key m) before /\
    Forall (fun y => key y <= key m) after.
Proof.
  destruct l as [|x l]; [discriminate|]. intros [= <-].
  destruct (fold_max_first l x) as [[Hx Hall] | (before & after & Hl & Hlt & Hb & Ha)];
    cbv zeta in *.
  - exists [], l. rewrite Hx. split; [reflexivity|]. split; [constructor | exact Hall].
  - exists (x :: before), after. split; [simpl; now rewrite <- Hl|].
    split; [constructor; assumption | exact Ha].
Qed.

Lemma py_max_is_Some (l : list A) :
  l <> [] -> exists m, py_max lt l = Some m.
Proof. destruct l as [|x l]; [done|]. intros _. now eexists. Qed.

Lemma py_max_elem (l : list A) (m : A) : py_max lt l = Some m -> m ∈ l.
Proof.
  destruct l as [|x l]; [discriminate|]. intros [= <-]. apply fold_max_elem.
Qed.

Lemma py_max_upper (l : list A) (m : A) :
  py_max lt l = Some m -> forall z, z ∈ l -> key z <= key m.
Proof.
  destruct l as [|x l]; [discriminate|]. intros [= <-]. apply fold_max_upper.
Qed.

End PyMax.

Lemma Qltb_score_float (a b : SimilarityScore) :
  Qltb (score_float a) (score_float b) = (ss_score a <? ss_score b).
Proof.
  unfold Qltb, score_float. simpl.
  apply eq_true_iff_eq. rewrite !Z.ltb_lt. lia.
Qed.

Lemma fold_max_score_float (l : list SimilarityScore) (x : SimilarityScore) :
  fold_left (fun m y => if Qltb m y then y else m) (score_float <$> l) (score_float x) =
  score_float
    (fold_left (fun m y => if ss_score m <? ss_score y then y else m) l x).
Proof.
  revert x. induction l as [|y l IH]; intros x; simpl; [reflexivity|].
  rewrite Qltb_score_float. destruct (ss_score x <? ss_score y); apply IH.
Qed.

Lemma py_max_score_float (l : list SimilarityScore) :
  py_max Qltb (score_float <$> l) =
  score_float <$> py_max (fun a b => ss_score a <? ss_score b) l.
Proof.
  destruct l as [|x l]; [reflexivity|]. simpl. f_equal. apply fold_max_score_float.
Qed.

Lemma score_float_ext (a b : SimilarityScore) :
  ss_score a = ss_score b -> score_float a = score_float b.
Proof. unfold score_float. now intros ->. Qed.

(** The greatest score of the rows of one evidence type, when the first of
    the greatest rows of all has that type. *)
Lemma py_max_of_kind (scores : list SimilarityScore) (top : SimilarityScore)
    (kind : string) :
  py_max (fun a b => ss_score a <? ss_score b) scores = Some top ->
  ss_evidence_type top = kind ->
  py_max Qltb (score_float <$> filter (fun s => ss_evidence_type s = kind) scores)
  = Some (score_float top).
Proof.
  intros Hmax Hkind. rewrite py_max_score_float.
  assert (top ∈ filter (fun s => ss_evidence_type s = kind) scores) as Hin.
  { apply list_elem_of_filter. split; [exact Hkind|]. now apply (py_max_elem ss_score). }
  destruct (py_max_is_Some ss_score (filter (fun s => ss_evidence_type s = kind) scores))
    as [m Hm].
  { intros Hnil. rewrite Hnil in Hin. now apply elem_of_nil in Hin. }
  rewrite Hm. simpl. f_equal. apply score_float_ext.
  pose proof (py_max_upper ss_score _ _ Hm top Hin) as Hle1.
  pose proof (py_max_elem ss_score _ _ Hm) as Hmin.
  apply list_elem_of_filter in Hmin as [_ Hmin].
  pose proof (py_max_upper ss_score _ _ Hmax m Hmin) as Hle2.
  lia.
Qed.

Lemma Qleb_false (x y : Q) : Qleb x y = false -> (y < x)%Q.
Proof. unfold Qleb, Qlt. apply Z.leb_gt. Qed.

Lemma score_float_le (a b : SimilarityScore) :
  ss_score a <= ss_score b -> (score_float a <= score_float b)%Q.
Proof. unfold score_float, Qle. simpl. lia. Qed.

(** A research score never classifies above a patent score that is at least
    as great, when the patent thresholds are not above the research ones. *)
Lemma research_below_patent (settings : Settings) (x y : Q) :
  (patent_red_threshold settings <= research_red_threshold settings)%Q ->
  (patent_yellow_threshold settings <= research_yellow_threshold settings)%Q ->
  (x <= y)%Q ->
  (severity (classify_novelty_risk settings x "paper") <=
   severity (classify_novelty_risk settings y "patent"))%nat.
Proof.
  intros Hred Hyellow Hxy. unfold classify_novelty_risk. simpl.
  destruct (Qleb (research_red_threshold settings) x) eqn:Hrx.
  - apply Qleb_le in Hrx.
    assert (Qleb (patent_red_threshold settings) y = true) as ->; [|simpl; lia].
    apply Qleb_le. eauto using Qle_trans.
  - destruct (Qleb (research_yellow_threshold settings) x) eqn:Hyx.
    + apply Qleb_le in Hyx.
      assert (Qleb (patent_yellow_threshold settings) y = true) as ->.
      { apply Qleb_le. eauto using Qle_trans. }
      destruct (Qleb (patent_red_threshold settings) y); simpl; lia.
    + destruct (Qleb (patent_red_threshold settings) y),
               (Qleb (patent_yellow_threshold settings) y); simpl; lia.
Qed.

Lemma severity_inj (a b : NoveltyRiskLevel) : severity a = severity b -> a = b.
Proof. destruct a, b; simpl; intros; congruence. Qed.

Lemma head_filter_is_Some {A : Type} (P : A -> Prop) `{!forall x, Decision (P x)}
    (l : list A) (x : A) :
  x ∈ l -> P x -> exists y, head (filter P l) = Some y /\ P y.
Proof.
  intros Hin HP.
  assert (x ∈ filter P l) as Hf by (apply list_elem_of_filter; auto).
  destruct (filter P l) as [|y l'] eqn:Hl.
  - now apply elem_of_nil in Hf.
  - exists y. split; [reflexivity|].
    assert (y ∈ filter P l) as Hy by (rewrite Hl; apply list_elem_of_here).
    now apply list_elem_of_filter in Hy.
Qed.

(** X30: for a stored project with at least one similarity score (every
    score of evidence type "paper" or "patent" and pointing to a stored
    evidence row, the patent thresholds no higher than the research ones)
    the novelty-risk operation returns, and its verdict is the class of the
    greatest score under the thresholds of the evidence type of the first
    row holding that score: every row before it has a strictly smaller score
    and no row after it a greater one.  When that row is a paper the verdict
    is the research risk; when it is a patent the verdict is the patent
    risk, and then also the highest-severity label of the two risks. *)
Theorem novelty_verdict_follows_top_score `{Runtime} (settings : Settings) (db : DB)
    (project_id : Z) (project : Project) :
  let scores := filter (fun s => ss_project_id s = project_id) (similarity_scores db) in
  crud_get_project db project_id = Some project ->
  scores <> [] ->
  (forall s, s ∈ scores ->
     (ss_evidence_type s = "paper" \/ ss_evidence_type s = "patent") /\
     exists e, e ∈ candidate_evidence db /\ ev_id e = ss_evidence_id s) ->
  (patent_red_threshold settings <= research_red_threshold settings)%Q ->
  (patent_yellow_threshold settings <= research_yellow_threshold settings)%Q ->
  exists db' r top before after,
    get_novelty_risk settings db project_id = Ok (db', r) /\
    scores = before ++ top :: after /\
    Forall (fun s => ss_score s < ss_score top) before /\
    Forall (fun s => ss_score s <= ss_score top) after /\
    novelty_risk r =
      classify_novelty_risk settings (score_float top) (ss_evidence_type top) /\
    max_similarity_score r = Some (score_float top) /\
    (ss_evidence_type top = "paper" -> novelty_risk r = research_risk r) /\
    (ss_evidence_type top = "patent" ->
       novelty_risk r = patent_risk r /\
       novelty_risk r = highest_severity (research_risk r) (patent_risk r)).
Proof.
  intros scores Hproject Hscores Hrows Hred Hyellow.
  destruct (py_max_is_Some ss_score scores Hscores) as [top Hmax].
  pose proof (py_max_elem ss_score _ _ Hmax) as Htop.
  pose proof (py_max_upper ss_score _ _ Hmax) as Hupper.
  destruct (Hrows top Htop) as [Hkind (e & He & Hid)].
  destruct (head_filter_is_Some (fun e => ev_id e = ss_evidence_id top)
              (candidate_evidence db) e He Hid) as (e0 & Hhead & _).
  assert (py_max Qltb (score_float <$> scores) = Some (score_float top)) as Hall.
  { rewrite py_max_score_float. now rewrite Hmax. }
  unfold get_novelty_risk. rewrite Hproject. fold scores. cbv zeta.
  rewrite Hmax, Hall, Hhead. cbv beta iota. unfold default, from_option, id.
  set (overall := classify_novelty_risk settings (score_float top) (ss_evidence_type top)).
  assert (exists notes,
            match overall with
            | RED =>
                Ok ("High similarity detected (" +:+ format_2f (score_float top)
                    +:+ "). Significant overlap with '"
                    +:+ String.substring 0 50 (ev_title e0) +:+ "...'.")
            | YELLOW =>
                Ok ("Moderate similarity detected (" +:+ format_2f (score_float top)
                    +:+ "). Review recommended.")
            | _ =>
                Ok ("Low similarity detected (" +:+ format_2f (score_float top)
                    +:+ "). Idea appears to have novel aspects.")
            end = (Ok notes : Result Exception string)) as [notes ->].
  { destruct overall; eexists; reflexivity. }
  destruct (py_max_first ss_score scores top Hmax) as (before & after & Hl & Hb & Ha).
  exists (update_analysis_state db project_id
            (fun a => {| as_project_id := as_project_id a;
                         as_similarity_computed := as_similarity_computed a;
                         as_novelty_risk := overall;
                         as_max_similarity_score :=
                           Some (int_of_product (score_float top) 10000);
                         as_top_evidence_id := ev_id <$> Some e0;
                         as_notes := notes |})).
  eexists. exists top, before, after.
  split; [reflexivity|].
  cbn [novelty_risk research_risk patent_risk max_similarity_score].
  split; [exact Hl|]. split; [exact Hb|]. split; [exact Ha|]. split; [reflexivity|].
  split; [reflexivity|].
  split.
  - intros Hpaper. rewrite (py_max_of_kind scores top "paper" Hmax Hpaper).
    subst overall. now rewrite Hpaper.
  - intros Hpatent. rewrite (py_max_of_kind scores top "patent" Hmax Hpatent).
    assert (overall = classify_novelty_risk settings (score_float top) "patent")
      as Hoverall by (subst overall; now rewrite Hpatent).
    split; [exact Hoverall|].
    rewrite Hoverall. unfold highest_severity.
    destruct (Nat.ltb_spec
                (severity match py_max Qltb
                                  (score_float <$>
                                   filter (fun s => ss_evidence_type s = "paper") scores)
                          with
                          | Some m => classify_novelty_risk settings m "paper"
                          | None => UNKNOWN
                          end)
                (severity (classify_novelty_risk settings (score_float top) "patent")))
      as [Hlt | Hge]; [reflexivity|].
    apply severity_inj. apply Nat.le_antisymm; [exact Hge|].
    rewrite py_max_score_float.
    destruct (py_max (fun a b => ss_score a <? ss_score b)
                (filter (fun s => ss_evidence_type s = "paper") scores))
      as [m|] eqn:Hm; simpl; [|lia].
    apply research_below_patent; [exact Hred | exact Hyellow |].
    apply score_float_le, Hupper.
    apply (py_max_elem ss_score) in Hm. now apply list_elem_of_filter in Hm.
Qed.

Lemma novelty_verdict_follows_top_score_witness :
  exists db' r top before after,
    get_novelty_risk default_settings patent_top_db 1 = Ok (db', r) /\
    filter (fun s => ss_project_id s = 1) (similarity_scores patent_top_db)
    = before ++ top :: after /\
    Forall (fun s => ss_score s < ss_score top) before /\
    Forall (fun s => ss_score s <= ss_score top) after /\
    novelty_risk r =
      classify_novelty_risk default_settings (score_float top) (ss_evidence_type top) /\
    max_similarity_score r = Some (score_float top) /\
    (ss_evidence_type top = "paper" -> novelty_risk r = research_risk r) /\
    (ss_evidence_type top = "patent" ->
       novelty_risk r = patent_risk r /\
       novelty_risk r = highest_severity (research_risk r) (patent_risk r)).
Proof.
  apply (novelty_verdict_follows_top_score default_settings patent_top_db 1
           (mkProject 1 "Valve" MIXED None)).
  - reflexivity.
  - vm_compute. discriminate.
  - intros s Hs. apply list_elem_of_In in Hs. vm_compute in Hs.
    destruct Hs as [<- | [<- | []]].
    + split; [left; reflexivity|].
      exists (mkCandidateEvidence 1 1 "paper" "A survey of valves").
      split; [apply list_elem_of_In; simpl; auto | reflexivity].
    + split; [right; reflexivity|].
      exists (mkCandidateEvidence 2 1 "patent" "Valve assembly").
      split; [apply list_elem_of_In; simpl; auto | reflexivity].
  - vm_compute. discriminate.
  - vm_compute. discriminate.
Defined.

(** C2, the code at the failing input: a project with a paper scored 0.78
    and a patent scored 0.76 under the default thresholds.  The patent risk
    is RED, the research risk is YELLOW, and the project-level verdict is
    YELLOW, the class of the greatest score 0.78 under the research
    thresholds of the row that holds it, not the highest-severity label RED
    of the two risks. *)
Lemma patent_red_hidden_by_research_yellow :
  exists db' r,
    get_novelty_risk default_settings mixed_scores_db 1 = Ok (db', r) /\
    research_risk r = YELLOW /\
    patent_risk r = RED /\
    highest_severity (research_risk r) (patent_risk r) = RED /\
    novelty_risk r = YELLOW /\
    novelty_risk r <> highest_severity (research_risk r) (patent_risk r).
Proof.
  do 2 eexists. split; [vm_compute; reflexivity|].
  repeat split; try reflexivity. discriminate.
Qed.

(** ** Audit log under sequences of operations *)

Lemma update_analysis_state_audit_logs db project_id f :
  audit_logs (update_analysis_state db project_id f) = audit_logs db.
Proof. reflexivity. Qed.

(** The three outcomes of [log_action]. *)
Lemma log_action_cases `{Runtime} settings now commit_ok db action_type entity_type
    entity_id user_id metadata :
  let r := log_action settings now commit_ok db action_type entity_type entity_id
             user_id metadata in
  (audit_logs_enabled settings = false /\ r = (db, true)) \/
  (audit_logs_enabled settings = true /\ r = (db, false) /\
   (ActionType_of action_type = None \/ metadata_json_of metadata = None \/
    commit_ok = false)) \/
  (exists a_type text,
     audit_logs_enabled settings = true /\ ActionType_of action_type = Some a_type /\
     metadata_json_of metadata = Some text /\ commit_ok = true /\
     r = (set_audit_logs db
            (audit_logs db ++
             [{| al_id := next_id (al_id <$> audit_logs db);
                 al_action_type := a_type;
                 al_entity_type := entity_type;
                 al_entity_id := entity_id;
                 al_user_id := if truthy user_id then user_id else Some "system";
                 al_created_at := now;
                 al_metadata_json := text;
                 al_compliance_mode_active := compliance_mode settings |}]),
          true)).
Proof.
  unfold log_action.
  destruct (audit_logs_enabled settings); simpl; [|now left].
  right.
  destruct (ActionType_of action_type) as [a_type|]; [|left; auto].
  destruct (metadata_json_of metadata) as [text|]; [|left; auto].
  destruct commit_ok; [|left; auto].
  right. exists a_type, text. auto.
Qed.


Lemma submit_feedback_audit_logs `{Runtime} now db output_id output_type project_id
    feedback_type user_id user_role comment ip_address :
  audit_logs (submit_feedback now db output_id output_type project_id feedback_type
                user_id user_role comment ip_address).1 = audit_logs db.
Proof.
  unfold submit_feedback.
  destruct (FeedbackType_of feedback_type); [|reflexivity].
  destruct (OutputType_of output_type); reflexivity.
Qed.

Lemma get_or_create_calibration_audit_logs `{Runtime} db project_id :
  audit_logs (committed db (get_or_create_calibration db project_id)) = audit_logs db.
Proof.
  unfold get_or_create_calibration.
  destruct (ConfidenceLevel_of _); reflexivity.
Qed.

Lemma compute_similarity_audit_logs `{Runtime} now idea_embedded cosine db project_id :
  audit_logs (committed db (compute_similarity now idea_embedded cosine db project_id))
  = audit_logs db.
Proof.
  unfold compute_similarity.
  destruct (crud_get_project db project_id); [|reflexivity].
  destruct idea_embedded; [|reflexivity]. simpl.
  destruct (fold_left _ _ _) as [[scores n] m]. reflexivity.
Qed.

Lemma get_novelty_risk_audit_logs `{Runtime} settings db project_id :
  audit_logs (committed db (get_novelty_risk settings db project_id)) = audit_logs db.
Proof.
  unfold get_novelty_risk.
  destruct (crud_get_project db project_id); [|reflexivity].
  destruct (py_max _ _); [|reflexivity].
  cbv zeta.
  match goal with
  | |- context [match ?n with Ok _ => _ | Raise _ => _ end] => destruct n
  end; reflexivity.
Qed.



Section OrderByDesc.
Context {A : Type} (key : A -> Z).

Let newer_first (a b : A) : Prop := key b <= key a.

Lemma insert_desc_sorted (x : A) (l : list A) :
  StronglySorted newer_first l -> StronglySorted newer_first (insert_desc key x l).
Proof.
  unfold newer_first.
  induction 1 as [|y l Hsorted IH Hall]; simpl.
  - constructor; [constructor | constructor].
  - destruct (Z.ltb_spec (key x) (key y)) as [Hlt | Hge].
    + constructor; [exact IH|].
      rewrite insert_desc_perm. constructor; [lia | exact Hall].
    + constructor; [now constructor|].
      constructor; [exact Hge|].
      eapply Forall_impl; [exact Hall|]. simpl. intros z Hz. lia.
Qed.

Lemma order_by_desc_sorted (l : list A) :
  StronglySorted newer_first (order_by_desc key l).
Proof.
  unfold order_by_desc. induction l as [|x l IH]; simpl.
  - constructor.
  - now apply insert_desc_sorted.
Qed.

Lemma take_sorted (n : nat) (l : list A) :
  StronglySorted newer_first l -> StronglySorted newer_first (take n l).
Proof.
  intros Hsorted. revert n.
  induction Hsorted as [|y l Hsorted IH Hall]; intros [|n]; simpl;
    try constructor.
  - apply IH.
  - now apply Forall_take.
Qed.

(** What a query ordered by a decreasing key and limited returns. *)
Lemma limit_order_elem (l : list A) (limit : Z) (x : A) :
  x ∈ sql_limit limit (order_by_desc key l) -> x ∈ l.
Proof.
  unfold sql_limit. intros Hin. rewrite <- (order_by_desc_perm key l).
  destruct (limit <? 0); [exact Hin|].
  rewrite <- (take_drop (Z.to_nat limit) (order_by_desc key l)).
  apply elem_of_app. now left.
Qed.

Lemma limit_order_perm (l : list A) (limit : Z) :
  limit < 0 \/ Z.of_nat (length l) <= limit ->
  sql_limit limit (order_by_desc key l) ≡ₚ l.
Proof.
  unfold sql_limit. intros Hall.
  destruct (Z.ltb_spec limit 0) as [Hneg | Hpos]; [apply order_by_desc_perm|].
  rewrite take_ge by (rewrite order_by_desc_perm; lia).
  apply order_by_desc_perm.
Qed.

Lemma limit_order_sorted (l : list A) (limit : Z) :
  StronglySorted newer_first (sql_limit limit (order_by_desc key l)).
Proof.
  unfold sql_limit. destruct (limit <? 0);
    [|apply take_sorted]; apply order_by_desc_sorted.
Qed.

Lemma limit_order_length (l : list A) (limit : Z) :
  length (sql_limit limit (order_by_desc key l)) =
  if limit <? 0 then length l else Nat.min (Z.to_nat limit) (length l).
Proof.
  unfold sql_limit. destruct (limit <? 0).
  - now rewrite order_by_desc_perm.
  - now rewrite length_take, order_by_desc_perm.
Qed.


(** A row newer than all others sorts first. *)
Lemma order_by_desc_newest (l : list A) (x : A) :
  Forall (fun y => key y < key x) l ->
  order_by_desc key (l ++ [x]) = x :: order_by_desc key l.
Proof.
  unfold order_by_desc. induction 1 as [|y l Hy Hall IH]; simpl; [reflexivity|].
  rewrite IH. simpl.
  now rewrite (proj2 (Z.ltb_lt (key y) (key x)) Hy).
Qed.

End OrderByDesc.




(** * Further properties of the code *)

(** ** Confidence calibrator: what the rules imply *)

(** The fields of the result for a stored project, in terms of the rule
    block. *)
Lemma calculate_confidence_fields `{Runtime} db project_id project :
  get_project db project_id = Some project ->
  let rate := disagreement_rate_of (feedback_list_of db project_id) in
  let flag := Qltb DISAGREEMENT_HIGH_THRESHOLD rate in
  let restricted := bool_decide (project_type project = PATENT) in
  let risk := novelty_risk_of db project_id in
  let count := evidence_count_of db project_id in
  let clarity := similarity_clarity_of db project_id in
  let rules := apply_rules risk count rate flag restricted in
  calculate_confidence db project_id = {|
    confidence_level := ConfidenceLevel_value rules.1;
    human_review_recommended :=
      bool_decide (rules.1 = LOW) || restricted || flag || bool_decide (risk = RED);
    disagreement_flag := flag;
    calibration_notes :=
      (((((note_if restricted NOTE_PATENT_CONTEXT
           ++ note_if (count <? EVIDENCE_COUNT_LOW_THRESHOLD) NOTE_LOW_EVIDENCE)
          ++ note_if (bool_decide (risk = RED)) NOTE_NOVELTY_RED)
         ++ note_if (Z.of_nat (length (feedback_list_of db project_id)) =? 0)
              NOTE_NO_FEEDBACK)
        ++ note_if flag NOTE_HIGH_DISAGREEMENT)
       ++ note_if (Qltb 0 clarity && Qltb clarity SIMILARITY_CLARITY_THRESHOLD)
            NOTE_LOW_SIMILARITY_CLARITY)
      ++ rules.2;
    metrics := metrics (calculate_confidence db project_id) |}.
Proof.
  intros Hp rate flag restricted risk count clarity rules.
  unfold calculate_confidence. rewrite Hp.
  fold rate flag restricted risk count clarity. fold rules.
  now destruct rules.
Qed.

Lemma ConfidenceLevel_value_inj (a b : ConfidenceLevel) :
  ConfidenceLevel_value a = ConfidenceLevel_value b -> a = b.
Proof. destruct a, b; simpl; intros; congruence. Qed.

Lemma apply_rules_flag_low risk count rate restricted :
  (apply_rules risk count rate true restricted).1 = LOW.
Proof. unfold apply_rules. now destruct (_ && _). Qed.

(** The outcome of the rule block does not depend on the novelty risk: with
    fewer than three evidence rows every later rule gives LOW with the same
    note as rule 1. *)
Lemma apply_rules_risk_irrelevant risk risk' count rate flag restricted :
  apply_rules risk count rate flag restricted =
  apply_rules risk' count rate flag restricted.
Proof.
  unfold apply_rules, EVIDENCE_COUNT_LOW_THRESHOLD, EVIDENCE_COUNT_MEDIUM_THRESHOLD.
  destruct (Z.ltb_spec count 3) as [Hlow | Hhigh].
  - assert ((10 <=? count) = false) as -> by (apply Z.leb_gt; lia).
    assert ((3 <=? count) = false) as -> by (apply Z.leb_gt; lia).
    rewrite !andb_true_r. simpl.
    destruct (bool_decide (risk = RED)), (bool_decide (risk' = RED)), flag, restricted;
      reflexivity.
  - now rewrite !andb_false_r.
Qed.

Lemma apply_rules_evidence_monotone risk count count' rate flag restricted :
  count <= count' ->
  (apply_rules risk count' rate flag restricted).1 = LOW ->
  (apply_rules risk count rate flag restricted).1 = LOW.
Proof.
  intros Hle. unfold apply_rules, EVIDENCE_COUNT_LOW_THRESHOLD,
    EVIDENCE_COUNT_MEDIUM_THRESHOLD.
  destruct (bool_decide (risk = RED)), flag, restricted,
    (Qltb rate (1 # 10)) eqn:H10, (Qltb rate (2 # 10)) eqn:H20,
    (Z.ltb_spec count 3), (Z.ltb_spec count' 3),
    (Z.leb_spec 10 count), (Z.leb_spec 10 count'),
    (Z.leb_spec 3 count), (Z.leb_spec 3 count');
    simpl; try reflexivity; try lia; try discriminate.
Qed.

Lemma apply_rules_restriction_monotone risk count rate flag :
  (apply_rules risk count rate flag false).1 = LOW ->
  (apply_rules risk count rate flag true).1 = LOW.
Proof.
  unfold apply_rules, EVIDENCE_COUNT_LOW_THRESHOLD, EVIDENCE_COUNT_MEDIUM_THRESHOLD.
  destruct (bool_decide (risk = RED)), flag,
    (Qltb rate (1 # 10)) eqn:H10, (Qltb rate (2 # 10)) eqn:H20,
    (Z.ltb_spec count 3), (Z.leb_spec 10 count), (Z.leb_spec 3 count);
    simpl; try reflexivity; try lia; try discriminate.
Qed.

Lemma apply_rules_medium risk count rate flag restricted :
  (apply_rules risk count rate flag restricted).1 = MEDIUM ->
  flag = false /\ 3 <= count /\ (rate < 2 # 10)%Q /\
  (restricted = true -> 10 <= count /\ (rate < 1 # 10)%Q).
Proof.
  unfold apply_rules, EVIDENCE_COUNT_LOW_THRESHOLD, EVIDENCE_COUNT_MEDIUM_THRESHOLD.
  destruct (bool_decide (risk = RED)), flag, restricted,
    (Qltb rate (1 # 10)) eqn:H10, (Qltb rate (2 # 10)) eqn:H20,
    (Z.ltb_spec count 3), (Z.leb_spec 10 count), (Z.leb_spec 3 count);
    simpl; try discriminate; try lia; intros _.
  all: try apply Qltb_lt in H10; try apply Qltb_lt in H20.
  all: repeat split; try lia; try assumption; try discriminate.
  all: try (eapply Qlt_trans; [exact H10 | reflexivity]).
Qed.

(** X1: for a stored project no human review is recommended exactly when the
    level is MEDIUM, the project is not of type PATENT and the stored novelty
    risk is not RED; in every other case review is recommended. *)
Theorem review_waived_iff `{Runtime} (db : DB) (project_id : Z) (project : Project) :
  get_project db project_id = Some project ->
  human_review_recommended (calculate_confidence db project_id) = false <->
  confidence_level (calculate_confidence db project_id) = "MEDIUM" /\
  project_type project <> PATENT /\
  novelty_risk_of db project_id <> RED.
Proof.
  intros Hp. rewrite (calculate_confidence_fields db project_id project Hp). simpl.
  set (rate := disagreement_rate_of (feedback_list_of db project_id)).
  set (risk := novelty_risk_of db project_id).
  destruct (Qltb DISAGREEMENT_HIGH_THRESHOLD rate) eqn:Hflag.
  - rewrite apply_rules_flag_low. simpl. split; [discriminate|]. intros [Hm _].
    discriminate Hm.
  - rewrite !orb_false_r.
    destruct (apply_rules_low_or_medium risk (evidence_count_of db project_id) rate false
                (bool_decide (project_type project = PATENT))) as [-> | ->]; simpl.
    + split; [discriminate|]. intros [Hm _]. discriminate Hm.
    + rewrite !orb_false_iff, !bool_decide_eq_false. tauto.
Qed.

Lemma review_waived_iff_witness :
  human_review_recommended (calculate_confidence (domain_db "AI") 1) = false.
Proof.
  apply (proj2 (review_waived_iff (domain_db "AI") 1
                  (mkProject 1 "Contract review" RESEARCH (Some "AI")) eq_refl)).
  repeat split; discriminate.
Defined.

(** X2: whenever the calibrator raises the disagreement flag for a stored
    project (a rate above 0.30) the level is LOW, human review is recommended
    and the notes carry the high-disagreement note, whatever the evidence
    count and the project type are. *)
Theorem disagreement_flag_forces_low `{Runtime} (db : DB) (project_id : Z)
    (project : Project) :
  get_project db project_id = Some project ->
  disagreement_flag (calculate_confidence db project_id) = true ->
  confidence_level (calculate_confidence db project_id) = "LOW" /\
  human_review_recommended (calculate_confidence db project_id) = true /\
  NOTE_HIGH_DISAGREEMENT ∈ calibration_notes (calculate_confidence db project_id) /\
  (30 # 100 < disagreement_rate_of (feedback_list_of db project_id))%Q.
Proof.
  intros Hp. rewrite (calculate_confidence_fields db project_id project Hp). simpl.
  intros Hflag. rewrite Hflag, apply_rules_flag_low. simpl.
  repeat split.
  - apply elem_of_app. left. apply elem_of_app. left. apply elem_of_app. right.
    apply list_elem_of_here.
  - now apply Qltb_lt in Hflag.
Qed.

Lemma disagreement_flag_forces_low_witness :
  confidence_level (calculate_confidence needs_revision_db 1) = "LOW".
Proof.
  apply (disagreement_flag_forces_low needs_revision_db 1
           (mkProject 1 "Valve" RESEARCH None) eq_refl eq_refl).
Defined.

(** X3: a stored project gets MEDIUM only with at least 3 evidence rows and
    a disagreement rate below 0.20, and a project of type PATENT only with
    at least 10 evidence rows and a rate below 0.10. *)
Theorem medium_needs_evidence_and_agreement `{Runtime} (db : DB) (project_id : Z)
    (project : Project) :
  get_project db project_id = Some project ->
  confidence_level (calculate_confidence db project_id) = "MEDIUM" ->
  3 <= evidence_count_of db project_id /\
  (disagreement_rate_of (feedback_list_of db project_id) < 2 # 10)%Q /\
  (project_type project = PATENT ->
   10 <= evidence_count_of db project_id /\
   (disagreement_rate_of (feedback_list_of db project_id) < 1 # 10)%Q).
Proof.
  intros Hp. rewrite (calculate_confidence_level db project_id project Hp).
  intros Hm. apply (ConfidenceLevel_value_inj _ MEDIUM) in Hm.
  apply apply_rules_medium in Hm as (_ & Hcount & Hrate & Hrestricted).
  split; [exact Hcount|]. split; [exact Hrate|].
  intros Hpatent. apply Hrestricted. now apply bool_decide_eq_true.
Qed.

Lemma medium_needs_evidence_and_agreement_witness :
  3 <= evidence_count_of patent_db 1 /\
  (disagreement_rate_of (feedback_list_of patent_db 1) < 2 # 10)%Q /\
  (project_type (mkProject 1 "Valve" PATENT None) = PATENT ->
   10 <= evidence_count_of patent_db 1 /\
   (disagreement_rate_of (feedback_list_of patent_db 1) < 1 # 10)%Q).
Proof.
  apply (medium_needs_evidence_and_agreement patent_db 1
           (mkProject 1 "Valve" PATENT None) eq_refl eq_refl).
Defined.

(** X4: further evidence rows never lower the level: if the level is LOW
    after rows were added to the evidence table, it was LOW before. *)
Theorem more_evidence_never_lowers_level `{Runtime} (db : DB) (project_id : Z)
    (extra : list CandidateEvidence) :
  confidence_level
    (calculate_confidence (set_candidate_evidence db (candidate_evidence db ++ extra))
       project_id) = "LOW" ->
  confidence_level (calculate_confidence db project_id) = "LOW".
Proof.
  destruct (get_project db project_id) as [project|] eqn:Hp.
  - rewrite (calculate_confidence_level db project_id project Hp).
    rewrite (calculate_confidence_level
               (set_candidate_evidence db (candidate_evidence db ++ extra))
               project_id project Hp).
    intros Hlow. apply (ConfidenceLevel_value_inj _ LOW) in Hlow.
    change (ConfidenceLevel_value ?x = "LOW") with
      (ConfidenceLevel_value x = ConfidenceLevel_value LOW).
    f_equal. revert Hlow. apply apply_rules_evidence_monotone.
    unfold evidence_count_of. simpl. rewrite filter_app, length_app. lia.
  - intros _. unfold calculate_confidence. now rewrite Hp.
Qed.

Lemma more_evidence_never_lowers_level_witness :
  confidence_level
    (calculate_confidence (set_candidate_evidence (domain_db "AI") []) 1) = "LOW".
Proof.
  apply (more_evidence_never_lowers_level
           (set_candidate_evidence (domain_db "AI") []) 1 (evidence_rows 1 2)).
  reflexivity.
Defined.

(** X5: the level never depends on the stored novelty risk: replacing the
    analysis-state table by any other leaves the level as it was, because
    with fewer than three evidence rows every rule after rule 1 gives LOW
    too. *)
Theorem level_independent_of_novelty_risk `{Runtime} (db : DB) (project_id : Z)
    (states : list AnalysisState) :
  confidence_level (calculate_confidence (set_analysis_states db states) project_id) =
  confidence_level (calculate_confidence db project_id).
Proof.
  destruct (get_project db project_id) as [project|] eqn:Hp.
  - rewrite (calculate_confidence_level db project_id project Hp).
    rewrite (calculate_confidence_level (set_analysis_states db states)
               project_id project Hp).
    f_equal. f_equal. apply apply_rules_risk_irrelevant.
  - unfold calculate_confidence. simpl.
    change (get_project (set_analysis_states db states) project_id)
      with (get_project db project_id).
    now rewrite Hp.
Qed.

(** X6: between two databases with the same evidence, analysis states and
    feedback, in which the project is of type PATENT in the first and of any
    type in the second, the first never gets the higher level: when the
    second is LOW so is the first. *)
Theorem patent_type_never_raises_level `{Runtime} (db1 db2 : DB) (project_id : Z)
    (p1 p2 : Project) :
  get_project db1 project_id = Some p1 ->
  get_project db2 project_id = Some p2 ->
  project_type p1 = PATENT ->
  candidate_evidence db1 = candidate_evidence db2 ->
  analysis_states db1 = analysis_states db2 ->
  user_feedback db1 = user_feedback db2 ->
  confidence_level (calculate_confidence db2 project_id) = "LOW" ->
  confidence_level (calculate_confidence db1 project_id) = "LOW".
Proof.
  intros Hp1 Hp2 Hpatent Hev Hst Hfb.
  rewrite (calculate_confidence_level db1 project_id p1 Hp1).
  rewrite (calculate_confidence_level db2 project_id p2 Hp2).
  unfold novelty_risk_of, evidence_count_of, feedback_list_of.
  rewrite Hev, Hst, Hfb. rewrite (bool_decide_eq_true_2 _ Hpatent).
  intros Hlow. apply (ConfidenceLevel_value_inj _ LOW) in Hlow.
  change (ConfidenceLevel_value ?x = "LOW") with
    (ConfidenceLevel_value x = ConfidenceLevel_value LOW).
  f_equal.
  destruct (bool_decide (project_type p2 = PATENT)); [exact Hlow|].
  now apply apply_rules_restriction_monotone.
Qed.

Lemma patent_type_never_raises_level_witness :
  confidence_level
    (calculate_confidence (set_candidate_evidence patent_db (evidence_rows 1 2)) 1)
  = "LOW".
Proof.
  apply (patent_type_never_raises_level
           (set_candidate_evidence patent_db (evidence_rows 1 2))
           (set_candidate_evidence (domain_db "AI") (evidence_rows 1 2))
           1 (mkProject 1 "Valve" PATENT None)
           (mkProject 1 "Contract review" RESEARCH (Some "AI")));
    reflexivity.
Defined.

(** ** Stored calibrations *)

Section UpdateFirst.
Context {A K : Type} `{EqDecision K} (key : A -> K) (k : K) (f : A -> A).
Hypothesis f_key : forall x, key (f x) = key x.

Let p (x : A) : bool := bool_decide (key x = k).

Lemma update_first_others (l : list A) :
  filter (fun x => key x <> k) (update_first p f l) = filter (fun x => key x <> k) l.
Proof.
  unfold p. induction l as [|x l IH]; [reflexivity|]. simpl.
  case_bool_decide as Hk.
  - rewrite !filter_cons, f_key. destruct (decide (key x <> k)); [contradiction|].
    reflexivity.
  - rewrite !filter_cons, IH. reflexivity.
Qed.

Lemma update_first_selected (l : list A) :
  filter (fun x => key x = k) (update_first p f l) =
  match filter (fun x => key x = k) l with
  | [] => []
  | x :: l' => f x :: l'
  end.
Proof.
  unfold p. induction l as [|x l IH]; [reflexivity|]. simpl.
  case_bool_decide as Hk.
  - rewrite !filter_cons, f_key. destruct (decide (key x = k)); [|contradiction].
    reflexivity.
  - rewrite !filter_cons, IH. destruct (decide (key x = k)); [contradiction|].
    reflexivity.
Qed.

Lemma update_first_none (l : list A) :
  filter (fun x => key x = k) l = [] -> update_first p f l = l.
Proof.
  unfold p. induction l as [|x l IH]; [reflexivity|]. simpl. rewrite filter_cons.
  destruct (decide (key x = k)) as [Hk | Hk]; [discriminate|].
  intros Hl. rewrite bool_decide_eq_false_2 by exact Hk. now rewrite IH.
Qed.

Lemma update_first_idempotent (l : list A) :
  (forall x, f (f x) = f x) ->
  update_first p f (update_first p f l) = update_first p f l.
Proof.
  intros Hf. unfold p. induction l as [|x l IH]; [reflexivity|]. simpl.
  case_bool_decide as Hk; simpl.
  - rewrite f_key, bool_decide_eq_true_2 by exact Hk. now rewrite Hf.
  - rewrite bool_decide_eq_false_2 by exact Hk. now rewrite IH.
Qed.

End UpdateFirst.

(** The row that [get_or_create_calibration] writes for a result. *)
Lemma get_or_create_calibration_rows `{Runtime} db project_id :
  exists level,
    ConfidenceLevel_value level =
      confidence_level (calculate_confidence db project_id) /\
    let result := calculate_confidence db project_id in
    let write (c : ConfidenceCalibration) := {|
      cc_project_id := cc_project_id c;
      cc_confidence_level := level;
      cc_human_review_recommended := human_review_recommended result;
      cc_disagreement_flag := disagreement_flag result;
      cc_calibration_notes := calibration_notes result;
      cc_total_feedback_count := metric_int (metrics result) "total_feedback";
      cc_disagreement_count := disagreement_count_of (metrics result);
      cc_agreement_count := cc_agreement_count c;
      cc_evidence_count := metric_int (metrics result) "evidence_count" |} in
    get_or_create_calibration db project_id =
    Ok (set_confidence_calibrations db
          match filter (fun c => cc_project_id c = project_id)
                  (confidence_calibrations db) with
          | [] =>
              confidence_calibrations db ++
              [{| cc_project_id := project_id;
                  cc_confidence_level := level;
                  cc_human_review_recommended := human_review_recommended result;
                  cc_disagreement_flag := disagreement_flag result;
                  cc_calibration_notes := calibration_notes result;
                  cc_total_feedback_count := metric_int (metrics result) "total_feedback";
                  cc_disagreement_count := 0;
                  cc_agreement_count := 0;
                  cc_evidence_count := metric_int (metrics result) "evidence_count" |}]
          | _ :: _ =>
              update_first (fun c => bool_decide (cc_project_id c = project_id)) write
                (confidence_calibrations db)
          end,
        result).
Proof.
  destruct (calculate_confidence_level_parses db project_id) as [level Hlevel].
  exists level. split.
  - destruct (get_project db project_id) as [project|] eqn:Hp.
    + rewrite (calculate_confidence_level db project_id project Hp) in *.
      rewrite ConfidenceLevel_of_value in Hlevel. now injection Hlevel as <-.
    + unfold calculate_confidence in *. rewrite Hp in *. simpl in *.
      change "LOW" with (ConfidenceLevel_value LOW) in Hlevel.
      rewrite ConfidenceLevel_of_value in Hlevel. now injection Hlevel as <-.
  - intros result write. subst write result. unfold get_or_create_calibration.
    rewrite Hlevel.
    destruct (filter (fun c => cc_project_id c = project_id)
                (confidence_calibrations db)); reflexivity.
Qed.

Lemma calibration_is_stored_result `{Runtime} db project_id :
  exists db',
    get_or_create_calibration db project_id =
    Ok (db', calculate_confidence db project_id).
Proof.
  destruct (get_or_create_calibration_rows db project_id) as (level & _ & Hrows).
  cbv zeta in Hrows. rewrite Hrows. now eexists.
Qed.

(** X7: the calibration operation never raises; it returns the result of
    [calculate_confidence], and afterwards the first stored calibration row
    of the project carries the returned level, review recommendation,
    disagreement flag and notes. *)
Theorem calibration_is_stored `{Runtime} (db : DB) (project_id : Z) :
  exists db' row,
    get_or_create_calibration db project_id =
      Ok (db', calculate_confidence db project_id) /\
    head (filter (fun c => cc_project_id c = project_id) (confidence_calibrations db'))
      = Some row /\
    ConfidenceLevel_value (cc_confidence_level row) =
      confidence_level (calculate_confidence db project_id) /\
    cc_human_review_recommended row =
      human_review_recommended (calculate_confidence db project_id) /\
    cc_disagreement_flag row = disagreement_flag (calculate_confidence db project_id) /\
    cc_calibration_notes row = calibration_notes (calculate_confidence db project_id).
Proof.
  destruct (get_or_create_calibration_rows db project_id) as (level & Hlevel & Hrows).
  cbv zeta in Hrows. rewrite Hrows.
  destruct (filter (fun c => cc_project_id c = project_id) (confidence_calibrations db))
    as [|c rest] eqn:Hsel.
  - eexists _, _. split; [reflexivity|]. simpl.
    rewrite filter_app, Hsel, filter_cons. simpl.
    rewrite decide_True by reflexivity. simpl.
    split; [reflexivity|]. now repeat split.
  - eexists _, _. split; [reflexivity|]. simpl.
    rewrite (update_first_selected cc_project_id project_id) by reflexivity.
    rewrite Hsel. simpl. split; [reflexivity|]. now repeat split.
Qed.

(** X8: the calibration operation keeps one row per project: a project with
    no row gets one, a project with rows keeps their number, the rows of
    every other project stay as they were, and no other table changes. *)
Theorem calibration_row_per_project `{Runtime} (db : DB) (project_id : Z) :
  let db' := committed db (get_or_create_calibration db project_id) in
  length (filter (fun c => cc_project_id c = project_id) (confidence_calibrations db'))
    = Nat.max 1 (length (filter (fun c => cc_project_id c = project_id)
                           (confidence_calibrations db))) /\
  filter (fun c => cc_project_id c <> project_id) (confidence_calibrations db')
    = filter (fun c => cc_project_id c <> project_id) (confidence_calibrations db) /\
  db' = set_confidence_calibrations db (confidence_calibrations db').
Proof.
  destruct (get_or_create_calibration_rows db project_id) as (level & Hlevel & Hrows).
  cbv zeta in Hrows. cbv zeta. rewrite Hrows. simpl.
  destruct (filter (fun c => cc_project_id c = project_id) (confidence_calibrations db))
    as [|c rest] eqn:Hsel.
  - rewrite !filter_app, Hsel, !filter_cons. simpl.
    rewrite decide_True by reflexivity.
    rewrite decide_False by (intros Hne; now apply Hne).
    simpl. rewrite app_nil_r. repeat split.
  - rewrite (update_first_selected cc_project_id project_id) by reflexivity.
    rewrite (update_first_others cc_project_id project_id) by reflexivity.
    rewrite Hsel. simpl. repeat split.
Qed.

(** X9: recalculation settles: a second calibration of the same project
    returns the same result as the first, and from the second on the database
    no longer changes; when the project already had a row, the first
    calibration already leaves the database it would leave again. *)
Theorem calibration_settles `{Runtime} (db : DB) (project_id : Z) :
  exists db1 db2 result,
    get_or_create_calibration db project_id = Ok (db1, result) /\
    get_or_create_calibration db1 project_id = Ok (db2, result) /\
    get_or_create_calibration db2 project_id = Ok (db2, result) /\
    (filter (fun c => cc_project_id c = project_id) (confidence_calibrations db) <> []
     -> db2 = db1).
Proof.
  destruct (get_or_create_calibration_rows db project_id) as (level & Hlevel & Hrows).
  cbv zeta in Hrows.
  set (result := calculate_confidence db project_id) in *.
  set (write := fun c : ConfidenceCalibration => {|
      cc_project_id := cc_project_id c;
      cc_confidence_level := level;
      cc_human_review_recommended := human_review_recommended result;
      cc_disagreement_flag := disagreement_flag result;
      cc_calibration_notes := calibration_notes result;
      cc_total_feedback_count := metric_int (metrics result) "total_feedback";
      cc_disagreement_count := disagreement_count_of (metrics result);
      cc_agreement_count := cc_agreement_count c;
      cc_evidence_count := metric_int (metrics result) "evidence_count" |}) in *.
  set (p := fun c : ConfidenceCalibration => bool_decide (cc_project_id c = project_id)).
  assert (forall rows,
            filter (fun c => cc_project_id c = project_id) rows <> [] ->
            get_or_create_calibration (set_confidence_calibrations db rows) project_id
            = Ok (set_confidence_calibrations db (update_first p write rows), result))
    as Hupdate.
  { intros rows Hsome.
    destruct (get_or_create_calibration_rows (set_confidence_calibrations db rows)
                project_id) as (level' & Hlevel' & Hrows').
    cbv zeta in Hrows'.
    change (calculate_confidence (set_confidence_calibrations db rows) project_id)
      with result in *.
    assert (level' = level) as ->
      by (apply ConfidenceLevel_value_inj; congruence).
    rewrite Hrows'. simpl.
    destruct (filter (fun c => cc_project_id c = project_id) rows); [done|].
    reflexivity. }
  assert (forall rows,
            filter (fun c => cc_project_id c = project_id) rows <> [] ->
            filter (fun c => cc_project_id c = project_id) (update_first p write rows)
            <> []) as Hkeep.
  { intros rows Hsome. unfold p.
    rewrite (update_first_selected cc_project_id project_id) by reflexivity.
    destruct (filter (fun c => cc_project_id c = project_id) rows); [done|]. done. }
  assert (forall rows, update_first p write (update_first p write rows)
                       = update_first p write rows) as Hidem.
  { intros rows. unfold p. apply (update_first_idempotent cc_project_id project_id);
      reflexivity. }
  destruct (filter (fun c => cc_project_id c = project_id) (confidence_calibrations db))
    as [|c rest] eqn:Hsel.
  - set (rows1 := confidence_calibrations db ++ _) in Hrows.
    assert (filter (fun c => cc_project_id c = project_id) rows1 <> []) as Hsome.
    { unfold rows1. rewrite filter_app, Hsel, filter_cons. simpl.
      now rewrite decide_True by reflexivity. }
    exists (set_confidence_calibrations db rows1),
           (set_confidence_calibrations db (update_first p write rows1)), result.
    split; [exact Hrows|]. split; [now apply Hupdate|].
    split; [|done].
    rewrite (Hupdate _ (Hkeep _ Hsome)). now rewrite Hidem.
  - assert (filter (fun c => cc_project_id c = project_id) (confidence_calibrations db)
            <> []) as Hsome by (now rewrite Hsel).
    exists (set_confidence_calibrations db
              (update_first p write (confidence_calibrations db))),
           (set_confidence_calibrations db
              (update_first p write (confidence_calibrations db))), result.
    split; [exact Hrows|].
    assert (get_or_create_calibration
              (set_confidence_calibrations db
                 (update_first p write (confidence_calibrations db))) project_id
            = Ok (set_confidence_calibrations db
                    (update_first p write (confidence_calibrations db)), result))
      as Hagain.
    { rewrite (Hupdate _ (Hkeep _ Hsome)). now rewrite Hidem. }
    repeat split; exact Hagain.
Qed.

Lemma calibration_settles_witness :
  exists db1 result,
    get_or_create_calibration calibrated_db 1 = Ok (db1, result) /\
    get_or_create_calibration db1 1 = Ok (db1, result).
Proof.
  destruct (calibration_settles calibrated_db 1)
    as (db1 & db2 & result & Hfirst & Hsecond & _ & Hsame).
  exists db1, result. split; [exact Hfirst|].
  rewrite <- (Hsame ltac:(vm_compute; discriminate)) at 2. exact Hsecond.
Defined.

(** X10: the confidence endpoint answers for every project id, stored or
    not: it never raises, its level is LOW or MEDIUM, and its badge is the
    orange badge for LOW and the blue badge for MEDIUM, never the green badge
    of HIGH; a level string outside the three known ones would get the badge
    of LOW. *)
Theorem confidence_endpoint_badge `{Runtime} (now : Z) (db : DB) (project_id : Z) :
  (exists db' response,
     Main.get_project_confidence now db project_id = Ok (db', response) /\
     Main.ccr_timestamp response = now /\
     ConfidenceLevel_value (Main.ccr_confidence_level response) =
       confidence_level (calculate_confidence db project_id) /\
     ((Main.ccr_confidence_level response = LOW /\
       Main.ccr_badge_properties response = badge_LOW) \/
      (Main.ccr_confidence_level response = MEDIUM /\
       Main.ccr_badge_properties response = badge_MEDIUM)) /\
     color (Main.ccr_badge_properties response) <> "green") /\
  (forall level : string,
     level <> "LOW" -> level <> "MEDIUM" -> level <> "HIGH" ->
     get_confidence_badge level = badge_LOW).
Proof.
  split.
  - destruct (calibration_is_stored_result db project_id) as [db' Hcall].
    unfold Main.get_project_confidence. rewrite Hcall.
    assert (confidence_level (calculate_confidence db project_id) = "LOW" \/
            confidence_level (calculate_confidence db project_id) = "MEDIUM")
      as [Hl | Hl].
    { destruct (get_project db project_id) as [project|] eqn:Hp.
      - rewrite (calculate_confidence_level db project_id project Hp).
        destruct (apply_rules_low_or_medium (novelty_risk_of db project_id)
                    (evidence_count_of db project_id)
                    (disagreement_rate_of (feedback_list_of db project_id))
                    (Qltb DISAGREEMENT_HIGH_THRESHOLD
                       (disagreement_rate_of (feedback_list_of db project_id)))
                    (bool_decide (project_type project = PATENT))) as [-> | ->];
          [left | right]; reflexivity.
      - left. unfold calculate_confidence. now rewrite Hp. }
    + rewrite Hl. eexists _, _. split; [reflexivity|]. simpl.
      repeat split; [left; split; reflexivity | discriminate].
    + rewrite Hl. eexists _, _. split; [reflexivity|]. simpl.
      repeat split; [right; split; reflexivity | discriminate].
  - intros level Hlow Hmedium Hhigh. unfold get_confidence_badge, badges.
    rewrite !lookup_insert_ne by congruence. now rewrite lookup_empty.
Qed.

Lemma confidence_endpoint_badge_witness :
  get_confidence_badge "VERY_HIGH" = badge_LOW.
Proof.
  apply (proj2 (confidence_endpoint_badge 0 empty_db 1) "VERY_HIGH"); discriminate.
Defined.

(** ** Feedback aggregator: counts, identifiers and frames *)

Lemma length_by_kind (l : list UserFeedback) :
  Z.of_nat (length l) =
  count_kind HELPFUL l + count_kind NOT_HELPFUL l + count_kind AGREE l +
  count_kind DISAGREE l + count_kind NEEDS_REVISION l + count_kind NEEDS_EXPERT l.
Proof.
  unfold count_kind, count_where.
  induction l as [|f l IH]; [reflexivity|].
  rewrite !filter_cons.
  destruct (fb_feedback_type f) eqn:Hk;
    repeat case_decide; try discriminate; try contradiction; simpl length; lia.
Qed.

(** X11: in the summary of an output the six counts by kind add up to the
    total count, which is the number of stored records of that output. *)
Theorem summary_counts_add_up `{Runtime} (db : DB) (o : string) :
  let s := get_feedback_for_output db o in
  total_count s =
    helpful_count s + not_helpful_count s + agree_count s + disagree_count s +
    needs_revision_count s + needs_expert_count s /\
  total_count s =
    Z.of_nat (length (filter (fun f => fb_output_id f = o) (user_feedback db))).
Proof.
  unfold get_feedback_for_output; simpl.
  set (sorted := order_by_desc fb_created_at
                   (filter (fun f => fb_output_id f = o) (user_feedback db))).
  split.
  - rewrite (length_by_kind sorted). unfold count_kind. lia.
  - unfold sorted. now rewrite order_by_desc_perm.
Qed.

(** X12: the disagreement rate the calibrator consumes lies between 0 and 1
    for every list of feedback records. *)
Theorem calibrator_rate_in_unit_interval (l : list UserFeedback) :
  (0 <= disagreement_rate_of l)%Q /\ (disagreement_rate_of l <= 1)%Q.
Proof.
  unfold disagreement_rate_of.
  destruct (Z.eqb_spec (Z.of_nat (length l)) 0) as [Hzero | Hpos].
  - split; discriminate.
  - assert (0 < inject_Z (Z.of_nat (length l)))%Q as Hlen.
    { rewrite <- (Zlt_Qlt 0). lia. }
    assert (0 <= count_where (fun f => fb_feedback_type f ∈ disagree_types) l
            <= Z.of_nat (length l)) as [Hlo Hhi].
    { unfold count_where. split; [lia|].
      apply inj_le. apply length_filter. }
    split.
    + apply Qle_shift_div_l; [exact Hlen|]. rewrite Qmult_0_l.
      now rewrite <- (Zle_Qle 0).
    + apply Qle_shift_div_r; [exact Hlen|]. rewrite Qmult_1_l.
      now rewrite <- Zle_Qle.
Qed.

(** X13: the summary of an output returns at most ten comments, none of them
    empty, and each the comment of a stored record of that output. *)
Theorem summary_comments `{Runtime} (db : DB) (o : string) :
  (length (comments (get_feedback_for_output db o)) <= 10)%nat /\
  forall c, c ∈ comments (get_feedback_for_output db o) ->
    c <> EmptyString /\
    exists f, f ∈ user_feedback db /\ fb_output_id f = o /\ fb_comment f = Some c.
Proof.
  unfold get_feedback_for_output; simpl. split.
  - rewrite length_take. lia.
  - intros c Hc.
    assert (c ∈ omap (fun f => if truthy (fb_comment f) then fb_comment f else None)
                  (order_by_desc fb_created_at
                     (filter (fun f => fb_output_id f = o) (user_feedback db))))
      as Hin.
    { match goal with
      | Hc : c ∈ take 10 ?l |- _ => rewrite <- (take_drop 10 l)
      end.
      apply elem_of_app. now left. }
    apply list_elem_of_omap in Hin as (f & Hf & Hsome).
    rewrite order_by_desc_perm in Hf. apply list_elem_of_filter in Hf as [Ho Hf].
    destruct (fb_comment f) as [c'|] eqn:Hcomment; simpl in Hsome; [|discriminate].
    destruct (String.eqb_spec c' EmptyString) as [-> | Hne]; [discriminate|].
    simpl in Hsome. injection Hsome as <-.
    split; [exact Hne|]. now exists f.
Qed.

Lemma summary_comments_witness :
  "Matches the cited patent" <> EmptyString /\
  exists f, f ∈ user_feedback commented_db /\ fb_output_id f = "claim_1" /\
            fb_comment f = Some "Matches the cited patent".
Proof.
  apply (proj2 (summary_comments commented_db "claim_1") "Matches the cited patent").
  apply list_elem_of_here.
Defined.

Lemma next_id_above (ids : list Z) :
  0 < next_id ids /\ forall x, x ∈ ids -> x < next_id ids.
Proof.
  unfold next_id. induction ids as [|y ids [IHpos IH]]; simpl.
  - split; [lia|]. intros x Hx. now apply elem_of_nil in Hx.
  - split; [lia|]. intros x Hx. apply elem_of_cons in Hx as [-> | Hx]; [lia|].
    specialize (IH x Hx). lia.
Qed.

(** X14: every submission keeps the identifiers of the feedback records
    pairwise distinct, and a successful one returns an identifier that is
    positive and greater than every identifier stored before. *)
Theorem submit_feedback_fresh_id `{Runtime} (now : Z) (db : DB)
    (output_id output_type : string) (project_id : Z) (feedback_type : string)
    (user_id user_role comment ip_address : option string) :
  let r := submit_feedback now db output_id output_type project_id feedback_type
             user_id user_role comment ip_address in
  (NoDup (fb_id <$> user_feedback db) -> NoDup (fb_id <$> user_feedback r.1)) /\
  (success r.2 = true ->
   0 < feedback_id r.2 /\
   (forall f, f ∈ user_feedback db -> fb_id f < feedback_id r.2) /\
   exists f, last (user_feedback r.1) = Some f /\ fb_id f = feedback_id r.2).
Proof.
  unfold submit_feedback.
  destruct (next_id_above (fb_id <$> user_feedback db)) as [Hpos Habove].
  destruct (FeedbackType_of feedback_type) as [fb_type|];
    [|split; [auto | discriminate]].
  destruct (OutputType_of output_type) as [out_type|];
    [|split; [auto | discriminate]].
  cbn [fst snd success feedback_id set_user_feedback user_feedback]. split.
  - intros Hnodup. rewrite fmap_app. apply NoDup_app. split; [exact Hnodup|].
    split; [|apply NoDup_singleton].
    intros x Hx Hnew. apply list_elem_of_singleton in Hnew. cbn [fb_id] in Hnew.
    subst x. specialize (Habove _ Hx). lia.
  - intros _. split; [exact Hpos|]. split.
    + intros f Hf. apply Habove. now apply list_elem_of_fmap_2.
    + eexists. split; [apply last_snoc | reflexivity].
Qed.

Lemma submit_feedback_fresh_id_witness :
  NoDup (fb_id <$>
         user_feedback
           (submit_feedback 5 needs_revision_db "claim_1" "CLAIM" 1 "AGREE"
              None None None None).1) /\
  0 < feedback_id
        (submit_feedback 5 needs_revision_db "claim_1" "CLAIM" 1 "AGREE"
           None None None None).2.
Proof.
  split.
  - apply (proj1 (submit_feedback_fresh_id 5 needs_revision_db "claim_1" "CLAIM" 1
                    "AGREE" None None None None)).
    simpl. apply NoDup_singleton.
  - apply (proj2 (submit_feedback_fresh_id 5 needs_revision_db "claim_1" "CLAIM" 1
                    "AGREE" None None None None)).
    reflexivity.
Defined.

(** X15: a submission for one output changes the summary of no other
    output, and a submission for one project changes the statistics of no
    other project. *)
Theorem submit_feedback_frame `{Runtime} (now : Z) (db : DB)
    (output_id output_type : string) (project_id : Z) (feedback_type : string)
    (user_id user_role comment ip_address : option string) :
  let db' := (submit_feedback now db output_id output_type project_id feedback_type
                user_id user_role comment ip_address).1 in
  (forall o, o <> output_id ->
     get_feedback_for_output db' o = get_feedback_for_output db o) /\
  (forall p, p <> project_id ->
     get_project_feedback db' p = get_project_feedback db p /\
     feedback_list_of db' p = feedback_list_of db p).
Proof.
  unfold submit_feedback.
  destruct (FeedbackType_of feedback_type) as [fb_type|]; [|split; auto].
  destruct (OutputType_of output_type) as [out_type|]; [|split; auto].
  simpl. split.
  - intros o Ho. unfold get_feedback_for_output. simpl.
    rewrite filter_app, filter_cons. simpl.
    rewrite decide_False by congruence. rewrite filter_nil, app_nil_r. reflexivity.
  - intros p Hp. unfold get_project_feedback, feedback_list_of. simpl.
    rewrite filter_app, filter_cons. simpl.
    rewrite decide_False by congruence. rewrite filter_nil, app_nil_r. split; reflexivity.
Qed.

Lemma submit_feedback_frame_witness :
  get_feedback_for_output
    (submit_feedback 5 needs_revision_db "claim_2" "CLAIM" 1 "AGREE"
       None None None None).1 "claim_1"
  = get_feedback_for_output needs_revision_db "claim_1".
Proof.
  apply (proj1 (submit_feedback_frame 5 needs_revision_db "claim_2" "CLAIM" 1 "AGREE"
                  None None None None) "claim_1").
  discriminate.
Defined.






(** ** Audit log: appends, identifiers and queries *)

(** X18: with audit logging enabled, [log_action] returns [True] exactly
    when the action type is a member of [ActionType], [json.dumps] accepts
    the metadata (it is not called for [None] and for the empty dictionary)
    and the commit succeeds; on [False] the database is left as it was; on
    [True] exactly one row is appended, with an identifier greater than every
    stored one, with a non-empty actor, which is "system" when the caller
    names none, and with the serialised metadata, which is [None] when the
    caller gives none or an empty dictionary. *)
Theorem log_action_enabled `{Runtime} (settings : Settings) (now : Z)
    (commit_ok : bool) (db : DB) (action_type entity_type : string)
    (entity_id : option Z) (user_id : option string)
    (metadata : option PyDictItems) :
  audit_logs_enabled settings = true ->
  let r := log_action settings now commit_ok db action_type entity_type entity_id
             user_id metadata in
  (r.2 = true <->
   (exists a_type, ActionType_of action_type = Some a_type) /\
   (exists text, metadata_json_of metadata = Some text) /\
   commit_ok = true) /\
  (r.2 = false -> r.1 = db) /\
  (r.2 = true ->
   exists entry actor,
     r.1 = set_audit_logs db (audit_logs db ++ [entry]) /\
     (forall x, x ∈ audit_logs db -> al_id x < al_id entry) /\
     al_user_id entry = Some actor /\ actor <> EmptyString /\
     (truthy user_id = false -> actor = "system") /\
     (truthy user_id = true -> user_id = Some actor) /\
     metadata_json_of metadata = Some (al_metadata_json entry) /\
     (metadata = None \/ metadata = Some [] -> al_metadata_json entry = None)).
Proof.
  intros Hon r.
  destruct (log_action_cases settings now commit_ok db action_type entity_type
              entity_id user_id metadata)
    as [[Hoff _] | [(_ & Hr & Hwhy) | (a_type & text & _ & Ha & Hm & Hc & Hr)]];
    [congruence | |]; fold r in Hr; rewrite Hr; cbn [fst snd].
  - split; [|split; [reflexivity | discriminate]].
    split; [discriminate|]. intros ([a Ha] & [text Hm] & Hc).
    destruct Hwhy as [Hwhy | [Hwhy | Hwhy]]; congruence.
  - split; [split; [intros _; eauto | reflexivity]|].
    split; [discriminate|]. intros _.
    destruct (next_id_above (al_id <$> audit_logs db)) as [_ Habove].
    assert (metadata = None \/ metadata = Some [] -> text = None) as Hnone.
    { intros [-> | ->]; simpl in Hm; congruence. }
    destruct user_id as [u|]; simpl.
    + destruct (String.eqb_spec u EmptyString) as [-> | Hne]; simpl.
      * eexists _, "system". split; [reflexivity|]. simpl.
        split; [intros x Hx; now apply Habove, list_elem_of_fmap_2|].
        repeat split; try discriminate; assumption.
      * eexists _, u. split; [reflexivity|]. simpl.
        split; [intros x Hx; now apply Habove, list_elem_of_fmap_2|].
        repeat split; try discriminate; assumption.
    + eexists _, "system". split; [reflexivity|]. simpl.
      split; [intros x Hx; now apply Habove, list_elem_of_fmap_2|].
      repeat split; try discriminate; assumption.
Qed.

Lemma log_action_enabled_witness :
  (log_action default_settings 3 true empty_db "NOVELTY_CLASSIFIED" "Project" (Some 1)
     None (Some [("report", PyObject "<Report>")])).1 = empty_db.
Proof.
  apply (proj1 (proj2 (log_action_enabled default_settings 3 true empty_db
                         "NOVELTY_CLASSIFIED" "Project" (Some 1) None
                         (Some [("report", PyObject "<Report>")]) eq_refl))).
  reflexivity.
Defined.

Lemma run_op_audit_ids `{Runtime} settings db op :
  NoDup (al_id <$> audit_logs db) ->
  NoDup (al_id <$> audit_logs (run_op settings db op)).
Proof.
  intros Hnodup. destruct op; simpl.
  - destruct (log_action_cases settings now commit_ok db action_type entity_type
                entity_id user_id metadata)
      as [[_ ->] | [(_ & -> & _) | (a_type & text & _ & _ & _ & _ & ->)]];
      [exact Hnodup | exact Hnodup |].
    cbn [fst audit_logs set_audit_logs].
    rewrite fmap_app. apply NoDup_app. split; [exact Hnodup|].
    split; [|apply NoDup_singleton].
    intros x Hx Hnew. apply list_elem_of_singleton in Hnew. cbn [al_id] in Hnew.
    subst x. apply (next_id_above (al_id <$> audit_logs db)) in Hx. lia.
  - now rewrite submit_feedback_audit_logs.
  - now rewrite get_or_create_calibration_audit_logs.
  - now rewrite compute_similarity_audit_logs.
  - now rewrite get_novelty_risk_audit_logs.
  - now destruct (validate_feature_access settings feature_name).
Qed.

(** X19: every sequence of operations keeps the identifiers of the audit
    rows pairwise distinct. *)
Theorem audit_ids_stay_distinct `{Runtime} (settings : Settings) (ops : list Op)
    (db : DB) :
  NoDup (al_id <$> audit_logs db) ->
  NoDup (al_id <$> audit_logs (run_ops settings db ops)).
Proof.
  revert db. induction ops as [|op ops IH]; intros db Hnodup; [exact Hnodup|].
  unfold run_ops in *. simpl. apply IH. now apply run_op_audit_ids.
Qed.

Lemma audit_ids_stay_distinct_witness :
  NoDup (al_id <$> audit_logs (run_ops default_settings empty_db (project_events 3))).
Proof.
  apply (audit_ids_stay_distinct default_settings (project_events 3) empty_db).
  apply NoDup_nil_2.
Defined.

(** X20: for an integer [limit] that is not negative the audit trail of a
    project holds at most [limit] rows, and none for the limit 0; each is a
    stored row of entity type "Project" with that project's id, and the rows
    are ordered from the newest to the oldest; with a limit that covers them
    it holds every such row.  A negative [limit] does not limit the query: the
    trail then holds every such row.  The recent system log has the same
    shape over all rows. *)
Theorem audit_queries_shape (db : DB) (project_id : Z) (limit : Z) :
  let trail := get_project_audit_trail db project_id limit in
  let recent := get_recent_system_logs db limit in
  let selected :=
    filter (fun a => al_entity_type a = "Project" /\ al_entity_id a = Some project_id)
      (audit_logs db) in
  ((0 <= limit -> Z.of_nat (length trail) <= limit) /\
   (limit = 0 -> trail = []) /\
   (limit < 0 -> trail ≡ₚ selected) /\
   Forall (fun a => a ∈ audit_logs db /\ al_entity_type a = "Project" /\
                    al_entity_id a = Some project_id) trail /\
   StronglySorted (fun a b => al_created_at b <= al_created_at a) trail /\
   (Z.of_nat (length selected) <= limit -> trail ≡ₚ selected)) /\
  ((0 <= limit -> Z.of_nat (length recent) <= limit) /\
   (limit = 0 -> recent = []) /\
   (limit < 0 -> recent ≡ₚ audit_logs db) /\
   Forall (fun a => a ∈ audit_logs db) recent /\
   StronglySorted (fun a b => al_created_at b <= al_created_at a) recent /\
   (Z.of_nat (length (audit_logs db)) <= limit -> recent ≡ₚ audit_logs db)).
Proof.
  intros trail recent selected.
  unfold trail, recent, get_project_audit_trail, get_recent_system_logs.
  fold selected. split.
  - split; [|split; [|split; [|split; [|split]]]].
    + intros Hpos. rewrite limit_order_length.
      destruct (Z.ltb_spec limit 0); lia.
    + intros ->. reflexivity.
    + intros Hneg. apply limit_order_perm. now left.
    + apply Forall_forall. intros a Ha. apply limit_order_elem in Ha.
      apply list_elem_of_filter in Ha as [[Ht Hi] Ha]. auto.
    + apply limit_order_sorted.
    + intros Hfew. apply limit_order_perm. now right.
  - split; [|split; [|split; [|split; [|split]]]].
    + intros Hpos. rewrite limit_order_length.
      destruct (Z.ltb_spec limit 0); lia.
    + intros ->. reflexivity.
    + intros Hneg. apply limit_order_perm. now left.
    + apply Forall_forall. intros a Ha. now apply limit_order_elem in Ha.
    + apply limit_order_sorted.
    + intros Hfew. apply limit_order_perm. now right.
Qed.

Lemma audit_queries_shape_witness :
  get_recent_system_logs (run_ops default_settings empty_db (project_events 3)) (-1)
  ≡ₚ audit_logs (run_ops default_settings empty_db (project_events 3)).
Proof.
  apply (proj1 (proj2 (proj2 (proj2
           (audit_queries_shape (run_ops default_settings empty_db (project_events 3))
              1 (-1)))))).
  lia.
Defined.

(** X21: let audit logging be enabled, the action type a member of
    [ActionType], the metadata accepted by [json.dumps] (or [None], or
    empty) and the commit successful.  Then an append for the entity
    "Project" [project_id], at a time later than that of every stored row, is
    the first row of that project's audit trail afterwards, for every limit
    other than 0, and it is the last stored row. *)
Theorem appended_row_heads_trail `{Runtime} (settings : Settings) (now : Z) (db : DB)
    (action_type : string) (a_type : ActionType) (project_id : Z)
    (user_id : option string) (metadata : option PyDictItems)
    (text : option string) (limit : Z) :
  audit_logs_enabled settings = true ->
  ActionType_of action_type = Some a_type ->
  metadata_json_of metadata = Some text ->
  Forall (fun a => al_created_at a < now) (audit_logs db) ->
  limit <> 0 ->
  exists entry,
    head (get_project_audit_trail
            (log_action settings now true db action_type "Project" (Some project_id)
               user_id metadata).1 project_id limit) = Some entry /\
    al_action_type entry = a_type /\ al_created_at entry = now /\
    al_metadata_json entry = text /\
    last (audit_logs (log_action settings now true db action_type "Project"
                        (Some project_id) user_id metadata).1) = Some entry.
Proof.
  intros Hon Hmember Hdumps Hnewer Hlimit.
  unfold log_action. rewrite Hon, Hmember, Hdumps. simpl.
  unfold get_project_audit_trail. simpl.
  rewrite filter_app, filter_cons. simpl.
  rewrite decide_True by (split; reflexivity). rewrite filter_nil.
  rewrite order_by_desc_newest.
  - unfold sql_limit. destruct (Z.ltb_spec limit 0) as [Hneg | Hpos].
    + eexists. split; [reflexivity|]. simpl. repeat split. apply last_snoc.
    + destruct (Z.to_nat limit) as [|n] eqn:Hn; [lia|]. simpl.
      eexists. split; [reflexivity|]. simpl. repeat split. apply last_snoc.
  - simpl. apply Forall_forall. intros a Ha. apply list_elem_of_filter in Ha as [_ Ha].
    rewrite Forall_forall in Hnewer. now apply Hnewer.
Qed.

Lemma appended_row_heads_trail_witness :
  exists entry,
    head (get_project_audit_trail
            (log_action default_settings 9 true empty_db "NOVELTY_CLASSIFIED" "Project"
               (Some 1) None (Some [("risk", PyStr "RED")])).1 1 100) = Some entry /\
    al_action_type entry = NOVELTY_CLASSIFIED /\ al_created_at entry = 9 /\
    al_metadata_json entry = Some "<json>" /\
    last (audit_logs (log_action default_settings 9 true empty_db "NOVELTY_CLASSIFIED"
                        "Project" (Some 1) None (Some [("risk", PyStr "RED")])).1)
    = Some entry.
Proof.
  apply (appended_row_heads_trail default_settings 9 empty_db "NOVELTY_CLASSIFIED"
           NOVELTY_CLASSIFIED 1 None (Some [("risk", PyStr "RED")]) (Some "<json>") 100).
  - reflexivity.
  - reflexivity.
  - reflexivity.
  - simpl. apply Forall_nil_2.
  - lia.
Defined.

(** ** Compliance status *)

Lemma RESTRICTED_FEATURES_from_items :
  RESTRICTED_FEATURES = list_to_map RESTRICTED_FEATURES_items.
Proof. reflexivity. Qed.

(** X22: the compliance status lists, in both modes, exactly the features
    that the feature check blocks when compliance mode is active, and it
    reports the two switches of the settings. *)
Theorem status_lists_blocked_features (settings : Settings) (feature_name : string) :
  (compliance_mode settings = true ->
   feature_name ∈ restricted_features (get_system_compliance_status settings) <->
   exists e, validate_feature_access settings feature_name = Raise e) /\
  restricted_features (get_system_compliance_status settings) =
    ["PATENT_CLAIM_GENERATION"; "DRAFT_OPTIMIZATION_CREATIVE"] /\
  compliance_mode_active (get_system_compliance_status settings) =
    compliance_mode settings /\
  audit_logging_enabled (get_system_compliance_status settings) =
    audit_logs_enabled settings.
Proof.
  split; [|repeat split].
  intros Hmode.
  unfold get_system_compliance_status, validate_feature_access,
    is_compliance_mode_active. cbn [restricted_features]. rewrite Hmode.
  cbn [negb]. rewrite RESTRICTED_FEATURES_from_items.
  assert (NoDup (RESTRICTED_FEATURES_items.*1)) as Hnodup by compute_done.
  split.
  - intros Hin. apply list_elem_of_fmap in Hin as ([k rule] & -> & Hin).
    apply list_elem_of_filter in Hin as [Hblocked Hin]. simpl in Hblocked.
    apply (elem_of_list_to_map_1 _ _ _ Hnodup) in Hin. cbn [fst]. rewrite Hin.
    cbn [negb]. rewrite Hblocked.
    now eexists.
  - intros [e He].
    destruct (list_to_map RESTRICTED_FEATURES_items !! feature_name)
      as [rule|] eqn:Hrule; [|discriminate He].
    destruct (allowed_in_compliance rule) eqn:Hallowed; [discriminate He|].
    apply elem_of_list_to_map_2 in Hrule.
    apply list_elem_of_fmap. exists (feature_name, rule). split; [reflexivity|].
    apply list_elem_of_filter. split; [exact Hallowed | exact Hrule].
Qed.

Lemma status_lists_blocked_features_witness :
  "DRAFT_OPTIMIZATION_CREATIVE"
    ∈ restricted_features (get_system_compliance_status compliant_settings) <->
  exists e,
    validate_feature_access compliant_settings "DRAFT_OPTIMIZATION_CREATIVE" = Raise e.
Proof.
  apply (proj1 (status_lists_blocked_features compliant_settings
                  "DRAFT_OPTIMIZATION_CREATIVE")).
  reflexivity.
Defined.

(** ** Novelty risk: stored verdict, missing rows and counts *)

Lemma classify_never_unknown settings score kind :
  classify_novelty_risk settings score kind <> UNKNOWN.
Proof.
  unfold classify_novelty_risk.
  destruct (String.eqb kind "patent"); repeat case_match; discriminate.
Qed.

Lemma update_analysis_state_risk db project_id f risk :
  (forall a, as_project_id (f a) = as_project_id a) ->
  (forall a, as_novelty_risk (f a) = risk) ->
  novelty_risk_of (update_analysis_state db project_id f) project_id =
  match analysis_state_of db project_id with
  | Some _ => risk
  | None => UNKNOWN
  end.
Proof.
  intros Hid Hrisk. unfold novelty_risk_of, analysis_state_of, update_analysis_state.
  simpl.
  rewrite (update_first_selected as_project_id project_id f Hid).
  destruct (filter (fun a => as_project_id a = project_id) (analysis_states db));
    simpl; [reflexivity | apply Hrisk].
Qed.

Lemma length_update_first {A : Type} (p : A -> bool) (f : A -> A) (l : list A) :
  length (update_first p f l) = length l.
Proof.
  induction l as [|x l IH]; [reflexivity|]. simpl.
  destruct (p x); simpl; [reflexivity | now rewrite IH].
Qed.

(** X23: whenever the novelty-risk operation answers, the verdict it returns
    is the one the calibrator reads afterwards, provided the project has an
    analysis-state row; without such a row the verdict is not stored and the
    calibrator reads UNKNOWN.  Projects, evidence, scores, feedback,
    calibrations and audit rows are left as they were. *)
Theorem verdict_is_what_the_calibrator_reads `{Runtime} (settings : Settings) (db db' : DB)
    (project_id : Z) (r : NoveltyRiskResponse) :
  get_novelty_risk settings db project_id = Ok (db', r) ->
  novelty_risk_of db' project_id =
    match analysis_state_of db project_id with
    | Some _ => novelty_risk r
    | None => UNKNOWN
    end /\
  db' = set_analysis_states db (analysis_states db') /\
  length (analysis_states db') = length (analysis_states db).
Proof.
  unfold get_novelty_risk.
  destruct (crud_get_project db project_id); [|discriminate].
  destruct (py_max _ _) as [top|].
  - cbv zeta.
    match goal with
    | |- context [match ?n with Ok _ => _ | Raise _ => _ end] => destruct n as [notes|]
    end; [|discriminate].
    intros [= <- <-]. cbn [novelty_risk]. split; [|split].
    + rewrite (update_analysis_state_risk db project_id _
                 (classify_novelty_risk settings
                    (default 0%Q (py_max Qltb
                       (score_float <$>
                        filter (fun s => ss_project_id s = project_id)
                          (similarity_scores db))))
                    (ss_evidence_type top))) by reflexivity.
      now destruct (analysis_state_of db project_id).
    + reflexivity.
    + simpl. apply length_update_first.
  - intros [= <- <-]. cbn [novelty_risk]. split; [|split].
    + rewrite (update_analysis_state_risk db project_id _ UNKNOWN) by reflexivity.
      now destruct (analysis_state_of db project_id).
    + reflexivity.
    + simpl. apply length_update_first.
Qed.

Lemma verdict_is_what_the_calibrator_reads_witness :
  exists db' r,
    get_novelty_risk default_settings mixed_scores_db 1 = Ok (db', r) /\
    novelty_risk_of db' 1 = novelty_risk r.
Proof.
  eexists _, _. split; [vm_compute; reflexivity|].
  apply (proj1 (verdict_is_what_the_calibrator_reads default_settings mixed_scores_db
                  _ 1 _ eq_refl)).
Defined.

Lemma head_filter_None {A : Type} (P : A -> Prop) `{!forall x, Decision (P x)}
    (l : list A) :
  (forall x, x ∈ l -> ~ P x) -> head (filter P l) = None.
Proof.
  intros Hnone. destruct (filter P l) as [|y l'] eqn:Hl; [reflexivity|].
  assert (y ∈ filter P l) as Hy by (rewrite Hl; apply list_elem_of_here).
  apply list_elem_of_filter in Hy as [HP Hy]. now destruct (Hnone y Hy).
Qed.

(** X24: when the evidence row of the top-scoring similarity score is
    missing, the novelty-risk operation fails with an AttributeError exactly
    when the verdict is RED, because only the RED note reads the title of
    that row; for any other verdict it answers, without a top match. *)
Theorem missing_top_evidence `{Runtime} (settings : Settings) (db : DB)
    (project_id : Z) (project : Project) (top : SimilarityScore) :
  let verdict :=
    classify_novelty_risk settings (score_float top) (ss_evidence_type top) in
  crud_get_project db project_id = Some project ->
  py_max (fun a b => ss_score a <? ss_score b)
    (filter (fun s => ss_project_id s = project_id) (similarity_scores db)) = Some top ->
  (forall e, e ∈ candidate_evidence db -> ev_id e <> ss_evidence_id top) ->
  (verdict = RED ->
   exists msg, get_novelty_risk settings db project_id = Raise (AttributeError msg)) /\
  (verdict <> RED ->
   exists db' r,
     get_novelty_risk settings db project_id = Ok (db', r) /\
     novelty_risk r = verdict /\ top_match r = None /\
     max_similarity_score r = Some (score_float top)).
Proof.
  intros verdict Hproject Hmax Hmissing.
  assert (py_max Qltb
            (score_float <$>
             filter (fun s => ss_project_id s = project_id) (similarity_scores db))
          = Some (score_float top)) as Hall.
  { rewrite py_max_score_float. now rewrite Hmax. }
  assert (head (filter (fun e => ev_id e = ss_evidence_id top) (candidate_evidence db))
          = None) as Hhead by (now apply head_filter_None).
  unfold get_novelty_risk. rewrite Hproject. cbv zeta.
  rewrite Hmax, Hall, Hhead. cbv beta iota. unfold default, from_option, id.
  fold verdict. split.
  - intros ->. now eexists.
  - intros Hnot. destruct verdict; try contradiction;
      (eexists _, _; split; [reflexivity|]; now repeat split).
Qed.

Lemma missing_top_evidence_witness :
  exists msg,
    get_novelty_risk default_settings orphan_score_db 1 = Raise (AttributeError msg).
Proof.
  apply (proj1 (missing_top_evidence default_settings orphan_score_db 1
                  (mkProject 1 "Valve" MIXED None)
                  (mkSimilarityScore 1 7 9000 "paper" 0) eq_refl eq_refl
                  ltac:(intros e He; apply elem_of_nil in He; destruct He))).
  reflexivity.
Defined.

Lemma py_max_None {A : Type} (lt : A -> A -> bool) (l : list A) :
  py_max lt l = None <-> l = [].
Proof. destruct l; simpl; split; intros; congruence. Qed.

Lemma length_two_kinds (scores : list SimilarityScore) :
  (length (filter (fun s => ss_evidence_type s = "paper") scores) +
   length (filter (fun s => ss_evidence_type s = "patent") scores)
   <= length scores)%nat.
Proof.
  induction scores as [|s scores IH]; [reflexivity|].
  rewrite !filter_cons.
  destruct (decide (ss_evidence_type s = "paper")) as [Hp | Hp],
           (decide (ss_evidence_type s = "patent")) as [Hq | Hq]; simpl; try lia.
  rewrite Hp in Hq. discriminate Hq.
Qed.

Lemma risk_unknown_iff settings kind (m : option Q) (n : Z) :
  (m = None <-> n = 0) ->
  match m with
  | Some x => classify_novelty_risk settings x kind
  | None => UNKNOWN
  end = UNKNOWN <-> n = 0.
Proof.
  intros Hm. destruct m as [x|].
  - split; [intros Hu; now apply classify_never_unknown in Hu|].
    intros Hz. apply Hm in Hz. discriminate Hz.
  - split; [intros _; now apply Hm | reflexivity].
Qed.

(** X25: in every answer of the novelty-risk operation the risk of a kind is
    UNKNOWN exactly when no score of that kind was compared, the overall
    verdict is UNKNOWN exactly when no score at all was compared, and the
    paper and patent counts together never exceed the total. *)
Theorem unknown_means_nothing_compared `{Runtime} (settings : Settings) (db db' : DB)
    (project_id : Z) (r : NoveltyRiskResponse) :
  get_novelty_risk settings db project_id = Ok (db', r) ->
  (research_risk r = UNKNOWN <-> research_matches r = 0) /\
  (patent_risk r = UNKNOWN <-> patent_matches r = 0) /\
  (novelty_risk r = UNKNOWN <-> total_evidence_compared r = 0) /\
  (research_max_score r = None <-> research_matches r = 0) /\
  (patent_max_score r = None <-> patent_matches r = 0) /\
  research_matches r + patent_matches r <= total_evidence_compared r /\
  total_evidence_compared r =
    Z.of_nat (length (filter (fun s => ss_project_id s = project_id)
                        (similarity_scores db))).
Proof.
  unfold get_novelty_risk.
  destruct (crud_get_project db project_id); [|discriminate].
  set (scores := filter (fun s => ss_project_id s = project_id) (similarity_scores db)).
  destruct (py_max _ scores) as [top|] eqn:Hmax.
  - cbv zeta.
    match goal with
    | |- context [match ?n with Ok _ => _ | Raise _ => _ end] => destruct n as [notes|]
    end; [|discriminate].
    intros [= <- <-].
    cbn [research_risk patent_risk novelty_risk research_matches patent_matches
         total_evidence_compared research_max_score patent_max_score].
    assert (forall kind,
              py_max Qltb (score_float <$> filter (fun s => ss_evidence_type s = kind)
                                             scores) = None <->
              Z.of_nat (length (filter (fun s => ss_evidence_type s = kind) scores)) = 0)
      as Hkind.
    { intros kind. rewrite py_max_None.
      destruct (filter (fun s => ss_evidence_type s = kind) scores); simpl;
        split; intros; try congruence; lia. }
    assert (scores <> []) as Hsome.
    { intros Hnil. rewrite Hnil in Hmax. discriminate Hmax. }
    split; [apply risk_unknown_iff, Hkind|].
    split; [apply risk_unknown_iff, Hkind|].
    split.
    { split; [intros Hu; now apply classify_never_unknown in Hu|].
      intros Hz. destruct scores; [done | simpl in Hz; lia]. }
    split; [apply Hkind|]. split; [apply Hkind|].
    split; [|reflexivity].
    pose proof (length_two_kinds scores). lia.
  - apply py_max_None in Hmax. intros [= <- <-]. rewrite Hmax. simpl.
    repeat split; reflexivity.
Qed.

Lemma unknown_means_nothing_compared_witness :
  exists db' r,
    get_novelty_risk default_settings patent_db 1 = Ok (db', r) /\
    (novelty_risk r = UNKNOWN <-> total_evidence_compared r = 0).
Proof.
  eexists _, _. split; [vm_compute; reflexivity|].
  apply (proj1 (proj2 (proj2 (unknown_means_nothing_compared default_settings patent_db
                                _ 1 _ eq_refl)))).
Defined.

(** ** Similarity computation and the list of scores *)

Lemma update_first_fmap {A B : Type} (g : A -> B) (p : A -> bool) (f : A -> A)
    (l : list A) :
  (forall x, g (f x) = g x) -> g <$> update_first p f l = g <$> l.
Proof.
  intros Hg. induction l as [|x l IH]; [reflexivity|]. cbn [update_first].
  destruct (p x); rewrite !fmap_cons; [now rewrite Hg | now rewrite IH].
Qed.

Lemma update_first_filter_frame {A : Type} (Q : A -> Prop) `{!forall x, Decision (Q x)}
    (p : A -> bool) (f : A -> A) (l : list A) :
  (forall x, p x = true -> ~ Q x /\ ~ Q (f x)) ->
  filter Q (update_first p f l) = filter Q l.
Proof.
  intros Hp. induction l as [|x l IH]; [reflexivity|]. cbn [update_first].
  destruct (p x) eqn:Hx.
  - destruct (Hp x Hx) as [Hq Hqf]. rewrite !filter_cons.
    rewrite decide_False by exact Hqf. rewrite decide_False by exact Hq.
    reflexivity.
  - rewrite !filter_cons, IH. reflexivity.
Qed.

Lemma store_score_pairs `{Runtime} now project_id ev score scores :
  NoDup ((fun s => (ss_project_id s, ss_evidence_id s)) <$> scores) ->
  NoDup ((fun s => (ss_project_id s, ss_evidence_id s))
         <$> store_score now project_id ev score scores).
Proof.
  intros Hnodup. unfold store_score.
  destruct (head (filter _ scores)) as [found|] eqn:Hhead.
  - rewrite update_first_fmap by reflexivity. exact Hnodup.
  - rewrite fmap_app. apply NoDup_app. split; [exact Hnodup|].
    split; [|apply NoDup_singleton].
    intros k Hk Hnew. apply list_elem_of_singleton in Hnew. subst k.
    apply list_elem_of_fmap in Hk as (s & Hs & Hin). simpl in Hs.
    apply head_None in Hhead.
    assert (s ∈ filter
              (fun s => bool_decide (ss_project_id s = project_id /\
                                     ss_evidence_id s = ev_id ev) = true) scores)
      as Hsel.
    { apply list_elem_of_filter. split; [|exact Hin].
      apply bool_decide_eq_true. now injection Hs as <- <-. }
    rewrite Hhead in Hsel. now apply elem_of_nil in Hsel.
Qed.

Lemma store_score_frame `{Runtime} now project_id ev score scores :
  filter (fun s => ss_project_id s <> project_id)
    (store_score now project_id ev score scores)
  = filter (fun s => ss_project_id s <> project_id) scores.
Proof.
  unfold store_score.
  destruct (head (filter _ scores)) as [found|].
  - apply update_first_filter_frame. intros s Hs.
    apply bool_decide_eq_true in Hs as [Hp _]. simpl. split; intros Hne; now apply Hne.
  - rewrite filter_app, filter_cons. simpl.
    rewrite decide_False by (intros Hne; now apply Hne).
    rewrite filter_nil. apply app_nil_r.
Qed.

Lemma Qltb_false (x y : Q) : Qltb x y = false -> (y <= x)%Q.
Proof. unfold Qltb, Qle. apply Z.ltb_ge. Qed.

(** The loop of [compute_similarity]. *)
Lemma similarity_loop `{Runtime} now project_id (cosine : CandidateEvidence -> option Q)
    (evidence : list CandidateEvidence) :
  forall scores n m,
    exists scores' m',
      fold_left
        (fun '(scores, scores_computed, max_score) ev =>
           match cosine ev with
           | None => (scores, scores_computed, max_score)
           | Some score =>
               (store_score now project_id ev score scores,
                scores_computed + 1,
                if Qltb max_score score then score else max_score)
           end)
        evidence (scores, n, m)
      = (scores', n + count_where (fun ev => is_Some (cosine ev)) evidence, m') /\
      (NoDup ((fun s => (ss_project_id s, ss_evidence_id s)) <$> scores) ->
       NoDup ((fun s => (ss_project_id s, ss_evidence_id s)) <$> scores')) /\
      filter (fun s => ss_project_id s <> project_id) scores'
        = filter (fun s => ss_project_id s <> project_id) scores /\
      (m <= m')%Q /\
      (forall ev c, ev ∈ evidence -> cosine ev = Some c -> (c <= m')%Q).
Proof.
  induction evidence as [|ev evidence IH]; intros scores n m.
  - exists scores, m. simpl. unfold count_where. simpl. rewrite Z.add_0_r.
    repeat split; auto using Qle_refl.
    intros ev c Hin. now apply elem_of_nil in Hin.
  - cbn [fold_left]. unfold count_where. rewrite filter_cons.
    destruct (cosine ev) as [score|] eqn:Hcos.
    + destruct (IH (store_score now project_id ev score scores) (n + 1)
                  (if Qltb m score then score else m))
        as (scores' & m' & Hfold & Hnodup & Hframe & Hle & Hmax).
      exists scores', m'. split.
      { rewrite Hfold. unfold count_where.
        rewrite decide_True by (now eexists). simpl length. f_equal. f_equal. lia. }
      split; [intros Hn; apply Hnodup; now apply store_score_pairs|].
      split; [rewrite Hframe; apply store_score_frame|].
      assert (m <= (if Qltb m score then score else m) /\
              score <= (if Qltb m score then score else m))%Q as [Hm Hs].
      { destruct (Qltb m score) eqn:Hlt.
        - apply Qltb_lt in Hlt. split; [now apply Qlt_le_weak | apply Qle_refl].
        - apply Qltb_false in Hlt. split; [apply Qle_refl | exact Hlt]. }
      split; [eapply Qle_trans; eassumption|].
      intros ev' c Hin Hc. apply elem_of_cons in Hin as [-> | Hin].
      * rewrite Hcos in Hc. injection Hc as <-. eapply Qle_trans; eassumption.
      * now apply (Hmax ev').
    + destruct (IH scores n m) as (scores' & m' & Hfold & Hnodup & Hframe & Hle & Hmax).
      exists scores', m'. split.
      { rewrite Hfold. unfold count_where.
        rewrite decide_False by (intros [c Hc]; discriminate Hc). reflexivity. }
      repeat split; try assumption.
      intros ev' c Hin Hc. apply elem_of_cons in Hin as [-> | Hin].
      * rewrite Hcos in Hc. discriminate Hc.
      * now apply (Hmax ev').
Qed.

(** X26: a similarity computation keeps at most one score per pair of
    project and evidence row, leaves the scores of every other project as
    they were, and changes nothing but the score table and the project's
    analysis state; for an unknown project, or without an embedding of the
    idea, it changes nothing at all. *)
Theorem compute_similarity_score_table `{Runtime} (now : Z) (idea_embedded : bool)
    (cosine : CandidateEvidence -> option Q) (db : DB) (project_id : Z) :
  let db' := committed db (compute_similarity now idea_embedded cosine db project_id) in
  (NoDup ((fun s => (ss_project_id s, ss_evidence_id s)) <$> similarity_scores db) ->
   NoDup ((fun s => (ss_project_id s, ss_evidence_id s)) <$> similarity_scores db')) /\
  filter (fun s => ss_project_id s <> project_id) (similarity_scores db')
    = filter (fun s => ss_project_id s <> project_id) (similarity_scores db) /\
  db' = set_analysis_states (set_similarity_scores db (similarity_scores db'))
          (analysis_states db') /\
  (crud_get_project db project_id = None \/ idea_embedded = false -> db' = db).
Proof.
  unfold compute_similarity.
  destruct (crud_get_project db project_id) as [project|].
  2: { simpl. repeat split; auto. now destruct db. }
  destruct idea_embedded; simpl.
  2: { repeat split; auto. now destruct db. }
  destruct (similarity_loop now project_id cosine
              (filter (fun e => ev_project_id e = project_id) (candidate_evidence db))
              (similarity_scores db) 0 0%Q)
    as (scores' & m' & Hfold & Hnodup & Hframe & _ & _).
  rewrite Hfold. simpl. repeat split; try assumption.
  intros [Hnone | Hoff]; discriminate.
Qed.

Lemma compute_similarity_score_table_witness :
  NoDup ((fun s => (ss_project_id s, ss_evidence_id s))
         <$> similarity_scores
               (committed mixed_scores_db
                  (compute_similarity 5 true (fun _ => Some (1 # 2)%Q) mixed_scores_db 1))).
Proof.
  apply (proj1 (compute_similarity_score_table 5 true (fun _ => Some (1 # 2)%Q)
                  mixed_scores_db 1)).
  compute_done.
Defined.

(** X27: for a stored project whose idea has an embedding the similarity
    computation answers with success; it counts the evidence rows of the
    project that have an embedding, reports no maximum exactly when it
    counted none, and otherwise reports a maximum that is at least 0 and at
    least every similarity it computed.  For an unknown project it raises
    HTTP 404; without an idea embedding it answers without success and
    leaves the database as it was. *)
Theorem compute_similarity_response `{Runtime} (now : Z) (idea_embedded : bool)
    (cosine : CandidateEvidence -> option Q) (db : DB) (project_id : Z) :
  (crud_get_project db project_id = None ->
   compute_similarity now idea_embedded cosine db project_id
   = Raise (not_found project_id)) /\
  (forall project,
     crud_get_project db project_id = Some project ->
     if idea_embedded then
       exists db' r,
         compute_similarity now idea_embedded cosine db project_id = Ok (db', r) /\
         sc_success r = true /\ sc_error r = None /\
         scores_computed r =
           count_where (fun ev => is_Some (cosine ev))
             (filter (fun e => ev_project_id e = project_id) (candidate_evidence db)) /\
         (sc_max_score r = None <-> scores_computed r = 0) /\
         (forall m, sc_max_score r = Some m ->
            (0 <= m)%Q /\
            forall ev c, ev ∈ candidate_evidence db -> ev_project_id ev = project_id ->
                         cosine ev = Some c -> (c <= m)%Q)
     else
       exists r,
         compute_similarity now idea_embedded cosine db project_id = Ok (db, r) /\
         sc_success r = false /\ scores_computed r = 0 /\ sc_max_score r = None /\
         sc_error r = Some "Idea embedding not found. Generate embeddings first.").
Proof.
  unfold compute_similarity. split.
  - now intros ->.
  - intros project ->. destruct idea_embedded; simpl.
    + destruct (similarity_loop now project_id cosine
                  (filter (fun e => ev_project_id e = project_id) (candidate_evidence db))
                  (similarity_scores db) 0 0%Q)
        as (scores' & m' & Hfold & _ & _ & Hzero & Hmax).
      rewrite Z.add_0_l in Hfold. rewrite Hfold. simpl. eexists _, _. split; [reflexivity|]. simpl.
      split; [reflexivity|]. split; [reflexivity|]. split; [reflexivity|].
      pose proof (count_where_nonneg (fun ev => is_Some (cosine ev))
                    (filter (fun e => ev_project_id e = project_id)
                       (candidate_evidence db))) as Hcount.
      split.
      * destruct (Z.ltb_spec 0
                    (count_where (fun ev => is_Some (cosine ev))
                       (filter (fun e => ev_project_id e = project_id)
                          (candidate_evidence db)))); split; intros; try discriminate;
          try reflexivity; lia.
      * intros m Hm.
        destruct (0 <? _); [|discriminate]. injection Hm as <-.
        split; [exact Hzero|]. intros ev c Hin Hproject Hc.
        apply (Hmax ev c); [|exact Hc]. apply list_elem_of_filter. auto.
    + eexists. split; [reflexivity|]. now repeat split.
Qed.

Lemma compute_similarity_response_witness :
  compute_similarity 5 true (fun _ => None) empty_db 1 = Raise (not_found 1) /\
  exists db' r,
    compute_similarity 5 true (fun _ => Some (1 # 2)%Q) mixed_scores_db 1 = Ok (db', r) /\
    sc_success r = true.
Proof.
  split.
  - apply (proj1 (compute_similarity_response 5 true (fun _ => None) empty_db 1)).
    reflexivity.
  - destruct (proj2 (compute_similarity_response 5 true (fun _ => Some (1 # 2)%Q)
                       mixed_scores_db 1) (mkProject 1 "Valve" MIXED None) eq_refl)
      as (db' & r & Hok & Hsuccess & _).
    now exists db', r.
Defined.

Lemma omap_sorted {A B : Type} (R : A -> A -> Prop) (R' : B -> B -> Prop)
    (g : A -> option B) (l : list A) :
  (forall a b a' b', R a b -> g a = Some a' -> g b = Some b' -> R' a' b') ->
  StronglySorted R l -> StronglySorted R' (omap g l).
Proof.
  intros Hg. induction 1 as [|x l Hsorted IH Hall]; [constructor|].
  change (omap g (x :: l))
    with (match g x with Some y => y :: omap g l | None => omap g l end).
  destruct (g x) as [y|] eqn:Hx; [|exact IH].
  constructor; [exact IH|].
  apply Forall_forall. intros z Hz. apply list_elem_of_omap in Hz as (b & Hb & Hgb).
  rewrite Forall_forall in Hall. eapply Hg; [apply Hall, Hb | exact Hx | exact Hgb].
Qed.

Lemma length_omap_le {A B : Type} (g : A -> option B) (l : list A) :
  (length (omap g l) <= length l)%nat.
Proof.
  induction l as [|x l IH]; [reflexivity|].
  change (omap g (x :: l))
    with (match g x with Some y => y :: omap g l | None => omap g l end).
  destruct (g x); simpl length; lia.
Qed.

(** X28: the list of similarity scores raises HTTP 404 for an unknown
    project; for a stored one it returns matches ordered from the greatest
    score to the smallest, each built from a stored score of the project and
    the stored evidence row it points to (a score whose evidence row is
    missing is dropped), and [total] is the number of matches returned.  For
    an integer [limit] that is not negative there are at most [limit]
    matches.  A negative [limit] does not limit the query: then, as with a
    limit that covers the scores of the project, every score of the project
    whose evidence row is stored has its match in the list. *)
Theorem similarity_list_shape (db : DB) (project_id : Z) (limit : Z) :
  (crud_get_project db project_id = None ->
   Main.list_similarity_scores db project_id limit = Raise (not_found project_id)) /\
  (forall project,
     crud_get_project db project_id = Some project ->
     exists r,
       Main.list_similarity_scores db project_id limit = Ok r /\
       Main.sl_total r = Z.of_nat (length (Main.sl_matches r)) /\
       (0 <= limit -> Z.of_nat (length (Main.sl_matches r)) <= limit) /\
       StronglySorted
         (fun a b => (sm_similarity_score b <= sm_similarity_score a)%Q)
         (Main.sl_matches r) /\
       Forall
         (fun m =>
            exists s e,
              s ∈ similarity_scores db /\ ss_project_id s = project_id /\
              e ∈ candidate_evidence db /\ ev_id e = ss_evidence_id s /\
              sm_evidence_id m = ev_id e /\ sm_title m = ev_title e /\
              sm_evidence_type m = ev_source_type e /\
              sm_similarity_score m = score_float s)
         (Main.sl_matches r) /\
       (limit < 0 \/
        Z.of_nat (length (filter (fun s => ss_project_id s = project_id)
                            (similarity_scores db))) <= limit ->
        forall s e,
          s ∈ similarity_scores db -> ss_project_id s = project_id ->
          head (filter (fun e => ev_id e = ss_evidence_id s) (candidate_evidence db))
          = Some e ->
          {| sm_evidence_id := ev_id e;
             sm_title := ev_title e;
             sm_evidence_type := ev_source_type e;
             sm_similarity_score := score_float s |} ∈ Main.sl_matches r)).
Proof.
  unfold Main.list_similarity_scores. split; [now intros ->|].
  intros project ->. eexists. split; [reflexivity|]. cbn [Main.sl_total Main.sl_matches].
  split; [reflexivity|]. split; [|split; [|split]].
  - intros Hpos.
    pose proof (length_omap_le
      (fun s =>
         (fun evidence => {|
            sm_evidence_id := ev_id evidence;
            sm_title := ev_title evidence;
            sm_evidence_type := ev_source_type evidence;
            sm_similarity_score := score_float s |})
         <$> head (filter (fun e => ev_id e = ss_evidence_id s) (candidate_evidence db)))
      (sql_limit limit
         (order_by_desc ss_score
            (filter (fun s => ss_project_id s = project_id) (similarity_scores db)))))
      as Hle.
    rewrite limit_order_length in Hle.
    destruct (Z.ltb_spec limit 0); lia.
  - eapply omap_sorted; [|apply (limit_order_sorted ss_score)].
    intros a b a' b' Hab Ha Hb. simpl in Hab.
    destruct (head (filter (fun e => ev_id e = ss_evidence_id a) (candidate_evidence db)));
      [|discriminate].
    destruct (head (filter (fun e => ev_id e = ss_evidence_id b) (candidate_evidence db)));
      [|discriminate].
    injection Ha as <-. injection Hb as <-. simpl. now apply score_float_le.
  - apply Forall_forall. intros m Hm. apply list_elem_of_omap in Hm as (s & Hs & Hm).
    apply limit_order_elem in Hs. apply list_elem_of_filter in Hs as [Hp Hs].
    destruct (head (filter (fun e => ev_id e = ss_evidence_id s) (candidate_evidence db)))
      as [e|] eqn:He; [|discriminate].
    injection Hm as <-. apply head_Some_elem_of in He.
    apply list_elem_of_filter in He as [Hid He].
    exists s, e. now repeat split.
  - intros Hall s e Hs Hp He. apply list_elem_of_omap. exists s. split.
    + rewrite (limit_order_perm ss_score _ _ Hall).
      apply list_elem_of_filter. now split.
    + now rewrite He.
Qed.

Lemma similarity_list_shape_witness :
  exists r,
    Main.list_similarity_scores mixed_scores_db 1 (-1) = Ok r /\
    forall s e,
      s ∈ similarity_scores mixed_scores_db -> ss_project_id s = 1 ->
      head (filter (fun e => ev_id e = ss_evidence_id s)
              (candidate_evidence mixed_scores_db)) = Some e ->
      {| sm_evidence_id := ev_id e;
         sm_title := ev_title e;
         sm_evidence_type := ev_source_type e;
         sm_similarity_score := score_float s |} ∈ Main.sl_matches r.
Proof.
  destruct (proj2 (similarity_list_shape mixed_scores_db 1 (-1))
              (mkProject 1 "Valve" MIXED None) eq_refl)
    as (r & Hok & _ & _ & _ & _ & Hall).
  exists r. split; [exact Hok|]. apply Hall. left. lia.
Defined.

(** ** Enumerations *)

Lemma enum_of_value_Some {A : Type} (value : A -> string) (members : list A)
    (s : string) (x : A) :
  enum_of_value value members s = Some x -> value x = s /\ x ∈ members.
Proof.
  unfold enum_of_value. intros Hhead. apply head_Some_elem_of in Hhead.
  now apply list_elem_of_filter in Hhead.
Qed.

Lemma ActionType_of_value (a : ActionType) :
  ActionType_of (ActionType_value a) = Some a.
Proof. now destruct a. Qed.

(** X29: for the four enumerations that the services parse (feedback kind,
    output kind, action type, confidence level) a string is accepted exactly
    when it is the value of a member, and it is then parsed to that member;
    so printing a member and parsing it back returns the member, distinct
    members have distinct values, and parsing is case-sensitive. *)
Theorem enumerations_round_trip :
  (forall s t, FeedbackType_of s = Some t <-> FeedbackType_value t = s) /\
  (forall s t, OutputType_of s = Some t <-> OutputType_value t = s) /\
  (forall s a, ActionType_of s = Some a <-> ActionType_value a = s) /\
  (forall s c, ConfidenceLevel_of s = Some c <-> ConfidenceLevel_value c = s) /\
  FeedbackType_of "disagree" = None /\ ActionType_of EmptyString = None.
Proof.
  repeat split; try reflexivity.
  - intros Hs. now apply enum_of_value_Some in Hs.
  - intros <-. apply FeedbackType_of_value.
  - intros Hs. now apply enum_of_value_Some in Hs.
  - intros <-. apply OutputType_of_value.
  - intros Hs. now apply enum_of_value_Some in Hs.
  - intros <-. apply ActionType_of_value.
  - intros Hs. now apply enum_of_value_Some in Hs.
  - intros <-. apply ConfidenceLevel_of_value.
Qed.

Lemma enumerations_round_trip_witness : FeedbackType_value DISAGREE = "DISAGREE".
Proof.
  apply (proj1 (proj1 enumerations_round_trip "DISAGREE" DISAGREE)). reflexivity.
Defined.
